(** * Ego: personality profile forms, gated views and their projections

    A shallow embedding of [app.py].  One run of the script is a
    computation over the Streamlit session state that also produces the
    list of elements it renders.  The widget values chosen by the user are
    the input of a run.  The calls at module level that set up the process
    ([load_dotenv], [st.set_page_config]) render nothing and touch no
    session state; they are left out. *)

From Stdlib Require Import ZArith DecimalString.
From stdpp Require Import gmap strings list fin_maps.

Local Open Scope Z_scope.

(** ** Python values *)

(** The values the script stores and prints: [None], integers, strings. *)
Inductive pyval : Type :=
| PyNone
| PyInt (z : Z)
| PyStr (s : string).

#[global] Instance pyval_eq_dec : EqDecision pyval.
Proof. solve_decision. Defined.

(** A stored assessment result: a dict from field name to value. *)
Abbreviation record := (gmap string pyval).

(** [st.session_state.personality_data]: a dict from assessment kind to
    its result. *)
Abbreviation profile := (gmap string record).

(** [str(v)], as an f-string placeholder formats a value. *)
Definition py_str (v : pyval) : string :=
  match v with
  | PyNone => "None"
  | PyInt z => NilZero.string_of_int (Z.to_int z)
  | PyStr s => s
  end.

(** [a == b] on values. *)
Definition py_eq (a b : pyval) : bool := bool_decide (a = b).

(** Host values that can be stored in a dict or offered as an option. *)
Class ToPy (A : Type) := to_py : A → pyval.
#[global] Instance Z_to_py : ToPy Z := PyInt.
#[global] Instance string_to_py : ToPy string := PyStr.

(** [list(range(lo, hi))]. *)
Definition py_range (lo hi : Z) : list Z :=
  (λ i : nat, lo + Z.of_nat i) <$> seq 0 (Z.to_nat (hi - lo)).

(** ** Session state *)

(** The handle built by [initialize_vector_db]; it is stored and never
    used. *)
Record vector_db : Type := Chroma {
  collection_name : string;
  embedding_model : string;
  persist_directory : string
}.

Record session_state : Type := SessionState {
  initialized : bool;
  personality_data : profile;
  vector_store : option vector_db
}.

(** Lines 17-20: the state of a fresh session. *)
Definition fresh_session : session_state :=
  {| initialized := false; personality_data := ∅; vector_store := None |}.

Definition with_personality_data (f : profile → profile) (s : session_state)
  : session_state :=
  {| initialized := initialized s;
     personality_data := f (personality_data s);
     vector_store := vector_store s |}.

(** ** Rendered elements *)

Inductive elem : Type :=
| ElTitle (s : string)
| ElHeader (s : string)
| ElSubheader (s : string)
| ElMarkdown (s : string)
| ElWrite (s : string)
| ElSuccess (s : string)
| ElWarning (s : string)
| ElInfo (s : string)
| ElRadio (label : string) (options : list string)
| ElSelectbox (label : string) (options : list pyval)
| ElSlider (label : string) (lo hi dflt : Z)
| ElButton (label : string)
| ElTextInput (label : string)
| ElBarChart (data : list (string * pyval))
| ElProgress (v : Z)
| ElColumns (n : nat)
| InSidebar (e : elem)
| InColumn (i : nat) (e : elem)
| InSpinner (msg : string) (e : elem).

(** ** The script monad: session state, rendered output, exceptions *)

Inductive exn : Type :=
| KeyError (k : string)
| IndexError.

Inductive res (A : Type) : Type :=
| Ok (a : A)
| Raise (e : exn).
Arguments Ok {A} a.
Arguments Raise {A} e.

Record outcome (A : Type) : Type := Outcome {
  result : res A;
  final : session_state;
  rendered : list elem
}.
Arguments Outcome {A} _ _ _.
Arguments result {A} _.
Arguments final {A} _.
Arguments rendered {A} _.

Definition M (A : Type) : Type := session_state → outcome A.

#[global] Instance M_ret : MRet M := λ A a s, Outcome (Ok a) s [].

#[global] Instance M_bind : MBind M := λ A B f m s,
  let o := m s in
  match result o with
  | Ok a =>
      let o' := f a (final o) in
      Outcome (result o') (final o') (rendered o ++ rendered o')
  | Raise e => Outcome (Raise e) (final o) (rendered o)
  end.

Definition raise {A} (e : exn) : M A := λ s, Outcome (Raise e) s [].

Definition emit (e : elem) : M unit := λ s, Outcome (Ok tt) s [e].

(** Runs [m] inside a container: each element it renders is wrapped. *)
Definition within {A} (c : elem → elem) (m : M A) : M A := λ s,
  let o := m s in Outcome (result o) (final o) (c <$> rendered o).

(** Reads [st.session_state.personality_data]. *)
Definition get_personality_data : M profile := λ s,
  Outcome (Ok (personality_data s)) s [].

(** [st.session_state.personality_data[k] = r]. *)
Definition set_personality_data_item (k : string) (r : record) : M unit := λ s,
  Outcome (Ok tt) (with_personality_data (<[k := r]>) s) [].

(** [d[k]] on a dict: [KeyError] when the key is absent. *)
Definition getitem {V} (d : gmap string V) (k : string) : M V :=
  match d !! k with
  | Some v => mret v
  | None => raise (KeyError k)
  end.

(** [s[0]] on a string: the one-character string, [IndexError] on [""]. *)
Definition str_head (s : string) : M string :=
  match s with
  | String c _ => mret (String c EmptyString)
  | EmptyString => raise IndexError
  end.

(** Truth value of a string: non-empty. *)
Definition str_truthy (s : string) : bool :=
  match s with
  | EmptyString => false
  | String _ _ => true
  end.

(** Truth value of a dict: non-empty. *)
Definition dict_truthy {V} (d : gmap string V) : bool :=
  negb (bool_decide (d = ∅)).

(** ** Streamlit calls *)

Definition st_title (s : string) : M unit := emit (ElTitle s).
Definition st_header (s : string) : M unit := emit (ElHeader s).
Definition st_subheader (s : string) : M unit := emit (ElSubheader s).
Definition st_markdown (s : string) : M unit := emit (ElMarkdown s).
Definition st_write (s : string) : M unit := emit (ElWrite s).
Definition st_success (s : string) : M unit := emit (ElSuccess s).
Definition st_warning (s : string) : M unit := emit (ElWarning s).
Definition st_info (s : string) : M unit := emit (ElInfo s).
Definition st_bar_chart (d : list (string * pyval)) : M unit :=
  emit (ElBarChart d).
Definition st_progress (v : Z) : M unit := emit (ElProgress v).
Definition st_columns (n : nat) : M unit := emit (ElColumns n).
Definition st_spinner {A} (msg : string) (m : M A) : M A :=
  within (InSpinner msg) m.
Definition st_sidebar {A} (m : M A) : M A := within InSidebar m.
Definition st_column {A} (i : nat) (m : M A) : M A := within (InColumn i) m.

(** Input widgets render themselves and return the value the user has set.
    A slider returns the chosen value; a radio or a select box returns the
    option at the chosen position; a button returns whether it was
    pressed.  The user cannot move a slider outside its bounds or choose a
    position outside the option list: the statements below take sliders in
    their bounds, and a position outside the list ends the run with
    [IndexError]. *)
Definition st_slider (label : string) (lo hi dflt : Z) (chosen : Z) : M Z :=
  emit (ElSlider label lo hi dflt);; mret chosen.

Definition st_radio (label : string) (options : list string) (chosen : nat)
  : M string :=
  emit (ElRadio label options);;
  match options !! chosen with
  | Some o => mret o
  | None => raise IndexError
  end.

Definition st_selectbox {A} `{ToPy A} (label : string) (options : list A)
    (chosen : nat) : M A :=
  emit (ElSelectbox label (to_py <$> options));;
  match options !! chosen with
  | Some o => mret o
  | None => raise IndexError
  end.

Definition st_button (label : string) (pressed : bool) : M bool :=
  emit (ElButton label);; mret pressed.

Definition st_text_input (label : string) (typed : string) : M string :=
  emit (ElTextInput label);; mret typed.

(** ** Static texts (the arguments of [st.markdown]) *)

Definition home_page_text : string :=
  "
    Ego is a privacy-focused application designed to capture your personality and enable 
    meaningful conversations with your past self. All your data is stored locally on your device.
    
    ## How it works:
    1. Complete personality assessments to build your digital profile
    2. Engage in regular reflections to capture your thoughts and perspectives
    3. Chat with your past self to gain insights into your personal evolution
    4. Analyze patterns and trends in your personality over time
    
    Get started by navigating to the Personality Assessment page.
    ".

Definition big_five_assessment_text : string :=
  "
    The Big Five personality traits represent five broad dimensions of personality:
    - Openness to experience
    - Conscientiousness
    - Extraversion
    - Agreeableness
    - Neuroticism
    
    Rate yourself on each dimension using the sliders below.
    ".

Definition mbti_assessment_text : string :=
  "
    The MBTI identifies preferences across four dichotomies:
    - Extraversion (E) vs. Introversion (I)
    - Sensing (S) vs. Intuition (N)
    - Thinking (T) vs. Feeling (F)
    - Judging (J) vs. Perceiving (P)
    
    Select your preferences below.
    ".

Definition enneagram_assessment_text : string :=
  "
    The Enneagram describes nine distinct personality types:
    1. The Reformer: Principled, purposeful, self-controlled
    2. The Helper: Generous, people-pleasing, possessive
    3. The Achiever: Adaptable, excelling, driven
    4. The Individualist: Expressive, dramatic, self-absorbed
    5. The Investigator: Perceptive, innovative, isolated
    6. The Loyalist: Engaging, responsible, anxious
    7. The Enthusiast: Spontaneous, versatile, scattered
    8. The Challenger: Self-confident, decisive, confrontational
    9. The Peacemaker: Receptive, reassuring, complacent
    
    Select your primary type and wing below.
    ".

Definition chat_page_text : string :=
  "
    Ask a question to your past self. The application will use your stored personality data
    to generate responses that reflect how you might have responded in the past.
    ".

Definition analytics_page_text : string :=
  "
    This page provides insights and visualizations based on your personality data.
    As you complete more assessments over time, you'll be able to track changes in your personality.
    ".

(** ** User input of one run *)

(** What the user has set on the widgets when the script runs: positions
    in option lists, slider values, typed text, pressed buttons. *)
Record ui : Type := Ui {
  ui_page : nat;
  ui_assessment_type : nat;
  ui_openness : Z;
  ui_conscientiousness : Z;
  ui_extraversion : Z;
  ui_agreeableness : Z;
  ui_neuroticism : Z;
  ui_save_big_five : bool;
  ui_ei : nat;
  ui_sn : nat;
  ui_tf : nat;
  ui_jp : nat;
  ui_save_mbti : bool;
  ui_primary_type : nat;
  ui_wing : nat;
  ui_instinct : nat;
  ui_save_enneagram : bool;
  ui_query : string;
  ui_ask : bool
}.

(** ** Assessment forms *)

Definition big_five_assessment (u : ui) : M unit :=
  st_subheader "Big Five (OCEAN) Assessment";;
  st_markdown big_five_assessment_text;;
  openness ← st_slider "Openness to Experience" 1 100 50 (ui_openness u);
  conscientiousness ←
    st_slider "Conscientiousness" 1 100 50 (ui_conscientiousness u);
  extraversion ← st_slider "Extraversion" 1 100 50 (ui_extraversion u);
  agreeableness ← st_slider "Agreeableness" 1 100 50 (ui_agreeableness u);
  neuroticism ← st_slider "Neuroticism" 1 100 50 (ui_neuroticism u);
  pressed ← st_button "Save Big Five Assessment" (ui_save_big_five u);
  if pressed : bool then
    set_personality_data_item "big_five"
      {[ "openness" := to_py openness;
         "conscientiousness" := to_py conscientiousness;
         "extraversion" := to_py extraversion;
         "agreeableness" := to_py agreeableness;
         "neuroticism" := to_py neuroticism ]};;
    st_success "Big Five assessment saved successfully!"
  else mret tt.

Definition ei_options : list string := ["Extraversion (E)"; "Introversion (I)"].
Definition sn_options : list string := ["Sensing (S)"; "Intuition (N)"].
Definition tf_options : list string := ["Thinking (T)"; "Feeling (F)"].
Definition jp_options : list string := ["Judging (J)"; "Perceiving (P)"].

Definition mbti_assessment (u : ui) : M unit :=
  st_subheader "Myers-Briggs Type Indicator (MBTI) Assessment";;
  st_markdown mbti_assessment_text;;
  ei ← st_radio "Energy orientation" ei_options (ui_ei u);
  sn ← st_radio "Information gathering" sn_options (ui_sn u);
  tf ← st_radio "Decision making" tf_options (ui_tf u);
  jp ← st_radio "Lifestyle" jp_options (ui_jp u);
  ei0 ← str_head ei;
  sn0 ← str_head sn;
  tf0 ← str_head tf;
  jp0 ← str_head jp;
  let mbti_type := ei0 +:+ sn0 +:+ tf0 +:+ jp0 in
  st_write ("Your MBTI type: " +:+ mbti_type);;
  pressed ← st_button "Save MBTI Assessment" (ui_save_mbti u);
  if pressed : bool then
    ei0 ← str_head ei;
    sn0 ← str_head sn;
    tf0 ← str_head tf;
    jp0 ← str_head jp;
    set_personality_data_item "mbti"
      {[ "type" := to_py mbti_type;
         "ei" := to_py ei0;
         "sn" := to_py sn0;
         "tf" := to_py tf0;
         "jp" := to_py jp0 ]};;
    st_success "MBTI assessment saved successfully!"
  else mret tt.

(** Lines 196-197: the two neighbours of the primary type, kept when they
    lie in 1..9. *)
Definition wing_options (primary_type : Z) : list Z :=
  filter (λ w, 1 ≤ w ≤ 9) [primary_type - 1; primary_type + 1].

Definition instinct_options : list string :=
  ["Self-Preservation (sp)"; "Social (so)"; "One-to-One/Sexual (sx)"].

Definition enneagram_assessment (u : ui) : M unit :=
  st_subheader "Enneagram Assessment";;
  st_markdown enneagram_assessment_text;;
  primary_type ← st_selectbox "Primary Type" (py_range 1 10) (ui_primary_type u);
  wing ← st_selectbox "Wing" (wing_options primary_type) (ui_wing u);
  instinct ← st_selectbox "Dominant Instinct" instinct_options (ui_instinct u);
  pressed ← st_button "Save Enneagram Assessment" (ui_save_enneagram u);
  if pressed : bool then
    set_personality_data_item "enneagram"
      {[ "primary_type" := to_py primary_type;
         "wing" := to_py wing;
         "instinct" := to_py instinct ]};;
    st_success "Enneagram assessment saved successfully!"
  else mret tt.

Definition assessment_type_options : list string :=
  ["Big Five (OCEAN)"; "Myers-Briggs Type Indicator (MBTI)"; "Enneagram"].

Definition assessment_page (u : ui) : M unit :=
  st_header "Personality Assessment";;
  assessment_type ←
    st_selectbox "Select Assessment Type" assessment_type_options
      (ui_assessment_type u);
  if bool_decide (assessment_type = "Big Five (OCEAN)") then
    big_five_assessment u
  else if bool_decide (assessment_type = "Myers-Briggs Type Indicator (MBTI)")
  then mbti_assessment u
  else if bool_decide (assessment_type = "Enneagram") then
    enneagram_assessment u
  else mret tt.

(** ** Views *)

Definition home_page : M unit :=
  st_header "Welcome to Ego";;
  st_markdown home_page_text.

(** [k in d]. *)
Definition dict_contains {V} (d : gmap string V) (k : string) : bool :=
  match d !! k with
  | Some _ => true
  | None => false
  end.

(** Lines 243-246: the placeholder answer. *)
Definition chat_response (user_query : string) : string :=
  "Based on your personality data, your past self might say: "
  +:+ "I would need to think about '" +:+ user_query
  +:+ "' carefully before responding.".

Definition chat_page (u : ui) : M unit :=
  st_header "Chat with Your Past Self";;
  data ← get_personality_data;
  if negb (dict_truthy data) then
    st_warning
      "Please complete at least one personality assessment before chatting."
  else
    st_markdown chat_page_text;;
    user_query ← st_text_input "Your question:" (ui_query u);
    (* [user_query and st.button("Ask")]: the button is only reached, and
       rendered, when the text is non-empty *)
    ask ← (if str_truthy user_query then st_button "Ask" (ui_ask u)
           else mret false);
    if ask : bool then
      st_spinner "Generating response..."
        (st_write "Your past self:";;
         let response := chat_response user_query in
         st_info response)
    else mret tt.

Definition analytics_page : M unit :=
  st_header "Personality Analytics";;
  data ← get_personality_data;
  if negb (dict_truthy data) then
    st_warning
      "Please complete at least one personality assessment to view analytics."
  else
    st_markdown analytics_page_text;;
    data ← get_personality_data;
    (if dict_contains data "big_five" then
       st_subheader "Big Five (OCEAN) Profile";;
       data ← get_personality_data;
       big_five ← getitem data "big_five";
       o ← getitem big_five "openness";
       c ← getitem big_five "conscientiousness";
       e ← getitem big_five "extraversion";
       a ← getitem big_five "agreeableness";
       n ← getitem big_five "neuroticism";
       st_bar_chart
         [("Openness", o); ("Conscientiousness", c); ("Extraversion", e);
          ("Agreeableness", a); ("Neuroticism", n)]
     else mret tt);;
    data ← get_personality_data;
    (if dict_contains data "mbti" then
       st_subheader "MBTI Type";;
       data ← get_personality_data;
       mbti ← getitem data "mbti";
       ty ← getitem mbti "type";
       st_write ("Your type: " +:+ py_str ty);;
       st_columns 2;;
       st_column 1
         (st_write "Energy orientation:";;
          ei ← getitem mbti "ei";
          st_progress (if py_eq ei (PyStr "E") then 100 else 0);;
          ei ← getitem mbti "ei";
          st_write (if py_eq ei (PyStr "E") then "E" else "I");;
          st_write "Information gathering:";;
          sn ← getitem mbti "sn";
          st_progress (if py_eq sn (PyStr "S") then 100 else 0);;
          sn ← getitem mbti "sn";
          st_write (if py_eq sn (PyStr "S") then "S" else "N"));;
       st_column 2
         (st_write "Decision making:";;
          tf ← getitem mbti "tf";
          st_progress (if py_eq tf (PyStr "T") then 100 else 0);;
          tf ← getitem mbti "tf";
          st_write (if py_eq tf (PyStr "T") then "T" else "F");;
          st_write "Lifestyle:";;
          jp ← getitem mbti "jp";
          st_progress (if py_eq jp (PyStr "J") then 100 else 0);;
          jp ← getitem mbti "jp";
          st_write (if py_eq jp (PyStr "J") then "J" else "P"))
     else mret tt);;
    data ← get_personality_data;
    (if dict_contains data "enneagram" then
       st_subheader "Enneagram Profile";;
       data ← get_personality_data;
       enneagram ← getitem data "enneagram";
       p ← getitem enneagram "primary_type";
       w ← getitem enneagram "wing";
       i ← getitem enneagram "instinct";
       st_write
         ("Type " +:+ py_str p +:+ "w" +:+ py_str w +:+ " ("
          +:+ py_str i +:+ ")")
     else mret tt).

(** ** The script *)

Definition initialize_vector_db : M vector_db :=
  mret (Chroma "ego_personality" "all-MiniLM-L6-v2" "./chroma_db").

Definition get_initialized : M bool := λ s, Outcome (Ok (initialized s)) s [].

Definition set_initialized (b : bool) : M unit := λ s,
  Outcome (Ok tt)
    {| initialized := b;
       personality_data := personality_data s;
       vector_store := vector_store s |} [].

Definition set_vector_store (v : option vector_db) : M unit := λ s,
  Outcome (Ok tt)
    {| initialized := initialized s;
       personality_data := personality_data s;
       vector_store := v |} [].

Definition page_options : list string :=
  ["Home"; "Personality Assessment"; "Chat with Past Self"; "Analytics"].

Definition main (u : ui) : M unit :=
  st_title "Ego: Digital Self-Reflection";;
  st_sidebar (st_title "Navigation");;
  page ← st_sidebar (st_radio "Go to" page_options (ui_page u));
  init ← get_initialized;
  (if negb init then
     st_spinner "Initializing local database..."
       (db ← initialize_vector_db;
        set_vector_store (Some db);;
        set_initialized true)
   else mret tt);;
  if bool_decide (page = "Home") then home_page
  else if bool_decide (page = "Personality Assessment") then assessment_page u
  else if bool_decide (page = "Chat with Past Self") then chat_page u
  else if bool_decide (page = "Analytics") then analytics_page
  else mret tt.

(** A session: the script runs once per user interaction, each run starting
    from the state the previous one left. *)
Definition run_session (us : list ui) : session_state :=
  foldl (λ s u, final (main u s)) fresh_session us.

(** The states a session can be in. *)
Definition reachable (s : session_state) : Prop :=
  ∃ us, s = run_session us.

(** * Vocabulary of the statements *)

(** ** Stored results *)

(** The three dicts the forms build (lines 124-130, 162-168, 208-212). *)
Definition big_five_record (o c e a n : Z) : record :=
  {[ "openness" := PyInt o;
     "conscientiousness" := PyInt c;
     "extraversion" := PyInt e;
     "agreeableness" := PyInt a;
     "neuroticism" := PyInt n ]}.

Definition mbti_record (ty ei sn tf jp : string) : record :=
  {[ "type" := PyStr ty;
     "ei" := PyStr ei;
     "sn" := PyStr sn;
     "tf" := PyStr tf;
     "jp" := PyStr jp ]}.

Definition enneagram_record (p w : Z) (i : string) : record :=
  {[ "primary_type" := PyInt p;
     "wing" := PyInt w;
     "instinct" := PyStr i ]}.

(** The shape of a stored Big Five result: five integers. *)
Definition stored_big_five (r : record) : Prop :=
  ∃ o c e a n, r = big_five_record o c e a n.

(** The shape of a stored MBTI result: the first characters of the chosen
    labels and their concatenation.  The [sn] letter is the first character
    of ["Sensing (S)"] or of ["Intuition (N)"]. *)
Definition stored_mbti (r : record) : Prop :=
  ∃ ei sn tf jp,
    ei ∈ ["E"; "I"] ∧ sn ∈ ["S"; "I"] ∧ tf ∈ ["T"; "F"] ∧ jp ∈ ["J"; "P"] ∧
    r = mbti_record (ei +:+ sn +:+ tf +:+ jp) ei sn tf jp.

(** The shape of a stored Enneagram result: the wing is one of the options
    offered for the primary type. *)
Definition stored_enneagram (r : record) : Prop :=
  ∃ p w i,
    1 ≤ p ≤ 9 ∧ w ∈ wing_options p ∧ i ∈ instinct_options ∧
    r = enneagram_record p w i.

(** Each key of the store is one of the three kinds and holds a result of
    that kind. *)
Definition stored_kind (k : string) (r : record) : Prop :=
  (k = "big_five" ∧ stored_big_five r) ∨
  (k = "mbti" ∧ stored_mbti r) ∨
  (k = "enneagram" ∧ stored_enneagram r).

Definition wf_profile (d : profile) : Prop :=
  ∀ k r, d !! k = Some r → stored_kind k r.

Definition wf_session (s : session_state) : Prop :=
  wf_profile (personality_data s).

(** ** Observations on the rendered output *)

(** The widget itself, whatever container it was rendered in. *)
Fixpoint widget (e : elem) : elem :=
  match e with
  | InSidebar e' | InColumn _ e' | InSpinner _ e' => widget e'
  | _ => e
  end.

(** The texts of the warnings, of the chat answers ([st.info]), the data of
    the bar charts, the values of the progress bars and the texts written
    with [st.write], each in rendering order. *)
Definition warnings (out : list elem) : list string :=
  omap (λ e, match widget e with ElWarning m => Some m | _ => None end) out.

Definition responses (out : list elem) : list string :=
  omap (λ e, match widget e with ElInfo m => Some m | _ => None end) out.

Definition charts (out : list elem) : list (list (string * pyval)) :=
  omap (λ e, match widget e with ElBarChart d => Some d | _ => None end) out.

Definition progress_bars (out : list elem) : list Z :=
  omap (λ e, match widget e with ElProgress v => Some v | _ => None end) out.

Definition written (out : list elem) : list string :=
  omap (λ e, match widget e with ElWrite m => Some m | _ => None end) out.

(** [q] occurs in [r]. *)
Definition is_substring (q r : string) : Prop :=
  ∃ pre post, r = pre +:+ q +:+ post.

(** ** The projections of the Analytics view, as the specification words
    them *)

(** Big Five: a five-value bar series with the stored values, in the order
    Openness, Conscientiousness, Extraversion, Agreeableness,
    Neuroticism. *)
Definition spec_bar_series (o c e a n : Z) : list (string * pyval) :=
  [("Openness", PyInt o); ("Conscientiousness", PyInt c);
   ("Extraversion", PyInt e); ("Agreeableness", PyInt a);
   ("Neuroticism", PyInt n)].

(** MBTI: a binary indicator per axis, 100 if the trait is the first-listed
    pole of the axis and 0 otherwise, in the order ei, sn, tf, jp. *)
Definition spec_indicator (trait first_pole : string) : Z :=
  if bool_decide (trait = first_pole) then 100 else 0.

Definition spec_mbti_indicators (ei sn tf jp : string) : list Z :=
  [spec_indicator ei "E"; spec_indicator sn "S"; spec_indicator tf "T";
   spec_indicator jp "J"].

(** Enneagram: the string [Type {primaryType}w{wing} ({instinct label})]. *)
Definition spec_enneagram_line (p w : Z) (i : string) : string :=
  "Type " +:+ NilZero.string_of_int (Z.to_int p) +:+ "w"
  +:+ NilZero.string_of_int (Z.to_int w) +:+ " (" +:+ i +:+ ")".

(** ** What the views render *)

(** [o] with [l] rendered before it. *)
Definition prepend {A} (l : list elem) (o : outcome A) : outcome A :=
  Outcome (result o) (final o) (l ++ rendered o).

(** The Chat view below its header, when something is stored. *)
Definition chat_body (u : ui) : list elem :=
  [ElMarkdown chat_page_text; ElTextInput "Your question:"] ++
  if str_truthy (ui_query u) then
    ElButton "Ask" ::
    if ui_ask u then
      [InSpinner "Generating response..." (ElWrite "Your past self:");
       InSpinner "Generating response..."
         (ElInfo (chat_response (ui_query u)))]
    else []
  else [].

(** The letter the Analytics view writes for a stored axis value. *)
Definition shown_pole (v first second : string) : string :=
  if py_eq (PyStr v) (PyStr first) then first else second.

(** The section of the Analytics view for each stored kind. *)
Definition big_five_section (o c e a n : Z) : list elem :=
  [ElSubheader "Big Five (OCEAN) Profile";
   ElBarChart
     [("Openness", PyInt o); ("Conscientiousness", PyInt c);
      ("Extraversion", PyInt e); ("Agreeableness", PyInt a);
      ("Neuroticism", PyInt n)]].

Definition mbti_section (ty ei sn tf jp : string) : list elem :=
  [ElSubheader "MBTI Type";
   ElWrite ("Your type: " +:+ ty);
   ElColumns 2;
   InColumn 1 (ElWrite "Energy orientation:");
   InColumn 1 (ElProgress (if py_eq (PyStr ei) (PyStr "E") then 100 else 0));
   InColumn 1 (ElWrite (if py_eq (PyStr ei) (PyStr "E") then "E" else "I"));
   InColumn 1 (ElWrite "Information gathering:");
   InColumn 1 (ElProgress (if py_eq (PyStr sn) (PyStr "S") then 100 else 0));
   InColumn 1 (ElWrite (if py_eq (PyStr sn) (PyStr "S") then "S" else "N"));
   InColumn 2 (ElWrite "Decision making:");
   InColumn 2 (ElProgress (if py_eq (PyStr tf) (PyStr "T") then 100 else 0));
   InColumn 2 (ElWrite (if py_eq (PyStr tf) (PyStr "T") then "T" else "F"));
   InColumn 2 (ElWrite "Lifestyle:");
   InColumn 2 (ElProgress (if py_eq (PyStr jp) (PyStr "J") then 100 else 0));
   InColumn 2 (ElWrite (if py_eq (PyStr jp) (PyStr "J") then "J" else "P"))].

Definition enneagram_section (p w : Z) (i : string) : list elem :=
  [ElSubheader "Enneagram Profile";
   ElWrite
     ("Type " +:+ py_str (PyInt p) +:+ "w" +:+ py_str (PyInt w) +:+ " ("
      +:+ i +:+ ")")].

(** ** A unary program logic for runs *)

(** [keeps I m Q]: from a state satisfying [I], the state [m] leaves also
    satisfies [I], whether [m] returns or raises, and a value it returns
    satisfies [Q]. *)
Definition keeps {A} (I : session_state → Prop) (m : M A) (Q : A → Prop)
  : Prop :=
  ∀ s, I s → I (final (m s)) ∧ ∀ a, result (m s) = Ok a → Q a.

(** ** Sample inputs *)

(** The Big Five form saved with the scores 80, 40, 60, 70, 30, and an
    earlier submission with other scores. *)
Definition big_five_ui : ui :=
  {| ui_page := 1; ui_assessment_type := 0;
     ui_openness := 80; ui_conscientiousness := 40; ui_extraversion := 60;
     ui_agreeableness := 70; ui_neuroticism := 30; ui_save_big_five := true;
     ui_ei := 0; ui_sn := 0; ui_tf := 0; ui_jp := 0; ui_save_mbti := false;
     ui_primary_type := 0; ui_wing := 0; ui_instinct := 0;
     ui_save_enneagram := false;
     ui_query := ""; ui_ask := false |}.

Definition earlier_big_five_ui : ui :=
  {| ui_page := 1; ui_assessment_type := 0;
     ui_openness := 10; ui_conscientiousness := 20; ui_extraversion := 30;
     ui_agreeableness := 45; ui_neuroticism := 99; ui_save_big_five := true;
     ui_ei := 0; ui_sn := 0; ui_tf := 0; ui_jp := 0; ui_save_mbti := false;
     ui_primary_type := 0; ui_wing := 0; ui_instinct := 0;
     ui_save_enneagram := false;
     ui_query := ""; ui_ask := false |}.

(** The MBTI form saved with the choice Introversion, Intuition, Feeling,
    Judging, and with the choice Extraversion, Sensing, Thinking,
    Perceiving. *)
Definition infj_ui : ui :=
  {| ui_page := 1; ui_assessment_type := 1;
     ui_openness := 50; ui_conscientiousness := 50; ui_extraversion := 50;
     ui_agreeableness := 50; ui_neuroticism := 50; ui_save_big_five := false;
     ui_ei := 1; ui_sn := 1; ui_tf := 1; ui_jp := 0; ui_save_mbti := true;
     ui_primary_type := 0; ui_wing := 0; ui_instinct := 0;
     ui_save_enneagram := false;
     ui_query := ""; ui_ask := false |}.

Definition estp_ui : ui :=
  {| ui_page := 1; ui_assessment_type := 1;
     ui_openness := 50; ui_conscientiousness := 50; ui_extraversion := 50;
     ui_agreeableness := 50; ui_neuroticism := 50; ui_save_big_five := false;
     ui_ei := 0; ui_sn := 0; ui_tf := 0; ui_jp := 1; ui_save_mbti := true;
     ui_primary_type := 0; ui_wing := 0; ui_instinct := 0;
     ui_save_enneagram := false;
     ui_query := ""; ui_ask := false |}.

(** The Enneagram form saved, with the primary type and the wing at the
    given positions of their select boxes. *)
Definition enneagram_ui_at (primary wing : nat) : ui :=
  {| ui_page := 1; ui_assessment_type := 2;
     ui_openness := 50; ui_conscientiousness := 50; ui_extraversion := 50;
     ui_agreeableness := 50; ui_neuroticism := 50; ui_save_big_five := false;
     ui_ei := 0; ui_sn := 0; ui_tf := 0; ui_jp := 0; ui_save_mbti := false;
     ui_primary_type := primary; ui_wing := wing; ui_instinct := 1;
     ui_save_enneagram := true;
     ui_query := ""; ui_ask := false |}.

(** Primary type 1, the first wing offered. *)
Definition enneagram_ui : ui := enneagram_ui_at 0 0.

(** The Chat view with a question typed and Ask pressed, and with Ask
    pressed on an empty question. *)
Definition asking_ui : ui :=
  {| ui_page := 2; ui_assessment_type := 0;
     ui_openness := 50; ui_conscientiousness := 50; ui_extraversion := 50;
     ui_agreeableness := 50; ui_neuroticism := 50; ui_save_big_five := false;
     ui_ei := 0; ui_sn := 0; ui_tf := 0; ui_jp := 0; ui_save_mbti := false;
     ui_primary_type := 0; ui_wing := 0; ui_instinct := 0;
     ui_save_enneagram := false;
     ui_query := "What should I do?"; ui_ask := true |}.

Definition silent_ui : ui :=
  {| ui_page := 2; ui_assessment_type := 0;
     ui_openness := 50; ui_conscientiousness := 50; ui_extraversion := 50;
     ui_agreeableness := 50; ui_neuroticism := 50; ui_save_big_five := false;
     ui_ei := 0; ui_sn := 0; ui_tf := 0; ui_jp := 0; ui_save_mbti := false;
     ui_primary_type := 0; ui_wing := 0; ui_instinct := 0;
     ui_save_enneagram := false;
     ui_query := ""; ui_ask := true |}.

(** ** Writes to the store *)

(** The store after the item assignments [w], made in order. *)
Definition apply_writes (w : list (string * record)) (d : profile) : profile :=
  foldl (λ d kv, <[kv.1 := kv.2]> d) d w.

(** [m] never reads the session state: its result and what it renders are
    fixed, and all it does to the state is a fixed list of item assignments
    to [personality_data], each under a key of [K]. *)
Definition writes_within {A} (K : list string) (m : M A) : Prop :=
  ∃ r l w,
    Forall (λ kv, kv.1 ∈ K) w ∧
    ∀ s, m s = Outcome r (with_personality_data (apply_writes w) s) l.

(** [I] looks at [personality_data] only. *)
Definition on_profile (I : session_state → Prop) : Prop :=
  ∀ s s', personality_data s = personality_data s' → I s → I s'.

(** [I] does not look at [personality_data]. *)
Definition off_profile (I : session_state → Prop) : Prop :=
  ∀ f s, I s → I (with_personality_data f s).

(** ** The script, step by step *)

(** Lines 50-53: the state after the initialisation step of [main]. *)
Definition init_session (s : session_state) : session_state :=
  if initialized s then s
  else {| initialized := true;
          personality_data := personality_data s;
          vector_store :=
            Some (Chroma "ego_personality" "all-MiniLM-L6-v2" "./chroma_db") |}.

(** Lines 56-63: the page [main] runs for the label chosen in the sidebar. *)
Definition route (page : string) (u : ui) : M unit :=
  if bool_decide (page = "Home") then home_page
  else if bool_decide (page = "Personality Assessment") then assessment_page u
  else if bool_decide (page = "Chat with Past Self") then chat_page u
  else if bool_decide (page = "Analytics") then analytics_page
  else mret tt.

(** What [main] renders before the page. *)
Definition main_chrome : list elem :=
  [ElTitle "Ego: Digital Self-Reflection";
   InSidebar (ElTitle "Navigation");
   InSidebar (ElRadio "Go to" page_options)].

(** ** Inputs the widgets allow *)

(** Every chosen position lies in the option list of its widget.  The wing
    list depends on the primary type chosen. *)
Definition valid_ui (u : ui) : Prop :=
  (ui_page u < 4)%nat ∧ (ui_assessment_type u < 3)%nat ∧
  (ui_ei u < 2)%nat ∧ (ui_sn u < 2)%nat ∧ (ui_tf u < 2)%nat ∧
  (ui_jp u < 2)%nat ∧
  (ui_primary_type u < 9)%nat ∧
  (ui_wing u < length (wing_options (1 + Z.of_nat (ui_primary_type u))))%nat ∧
  (ui_instinct u < 3)%nat.

(** Every slider value lies in the slider's bounds. *)
Definition sliders_in_bounds (u : ui) : Prop :=
  1 ≤ ui_openness u ≤ 100 ∧ 1 ≤ ui_conscientiousness u ≤ 100 ∧
  1 ≤ ui_extraversion u ≤ 100 ∧ 1 ≤ ui_agreeableness u ≤ 100 ∧
  1 ≤ ui_neuroticism u ≤ 100.

(** The stored Big Five scores, if any, lie in 1..100. *)
Definition big_five_in_bounds (s : session_state) : Prop :=
  ∀ r, personality_data s !! "big_five" = Some r →
    ∃ o c e a n,
      r = big_five_record o c e a n ∧
      1 ≤ o ≤ 100 ∧ 1 ≤ c ≤ 100 ∧ 1 ≤ e ≤ 100 ∧ 1 ≤ a ≤ 100 ∧ 1 ≤ n ≤ 100.

(** The option at position [i] of a two-option radio. *)
Definition pole_at (i : nat) (first second : string) : string :=
  match i with O => first | _ => second end.

(** The indicator the Analytics view shows for an axis whose option at
    position [i] was saved. *)
Definition indicator_at (i : nat) : Z :=
  match i with O => 100 | _ => 0 end.

(** The Home page, the Analytics page with a Save flag left set from a
    form that is not shown, and the assessment page with no Save pressed. *)
Definition home_ui : ui :=
  {| ui_page := 0; ui_assessment_type := 0;
     ui_openness := 50; ui_conscientiousness := 50; ui_extraversion := 50;
     ui_agreeableness := 50; ui_neuroticism := 50; ui_save_big_five := false;
     ui_ei := 0; ui_sn := 0; ui_tf := 0; ui_jp := 0; ui_save_mbti := false;
     ui_primary_type := 0; ui_wing := 0; ui_instinct := 0;
     ui_save_enneagram := false;
     ui_query := ""; ui_ask := false |}.

Definition analytics_ui : ui :=
  {| ui_page := 3; ui_assessment_type := 0;
     ui_openness := 1; ui_conscientiousness := 2; ui_extraversion := 3;
     ui_agreeableness := 4; ui_neuroticism := 5; ui_save_big_five := true;
     ui_ei := 0; ui_sn := 0; ui_tf := 0; ui_jp := 0; ui_save_mbti := false;
     ui_primary_type := 0; ui_wing := 0; ui_instinct := 0;
     ui_save_enneagram := false;
     ui_query := ""; ui_ask := false |}.

Definition browsing_ui : ui :=
  {| ui_page := 1; ui_assessment_type := 0;
     ui_openness := 1; ui_conscientiousness := 2; ui_extraversion := 3;
     ui_agreeableness := 4; ui_neuroticism := 5; ui_save_big_five := false;
     ui_ei := 0; ui_sn := 0; ui_tf := 0; ui_jp := 0; ui_save_mbti := false;
     ui_primary_type := 0; ui_wing := 0; ui_instinct := 0;
     ui_save_enneagram := false;
     ui_query := ""; ui_ask := false |}.

(** A state that no session reaches: a Big Five result with two of its
    five scores. *)
Definition partial_big_five : record :=
  {[ "openness" := PyInt 80; "conscientiousness" := PyInt 40 ]}.

Definition partial_session : session_state :=
  {| initialized := true;
     personality_data := {[ "big_five" := partial_big_five ]};
     vector_store :=
       Some (Chroma "ego_personality" "all-MiniLM-L6-v2" "./chroma_db") |}.

(** The key each assessment type writes, in the order of the assessment
    select box. *)
Definition kind_keys : list string := ["big_five"; "mbti"; "enneagram"].

(** The MBTI form selected while the Save flag of the Big Five form, which
    is not shown, is set. *)
Definition stale_save_ui : ui :=
  {| ui_page := 1; ui_assessment_type := 1;
     ui_openness := 1; ui_conscientiousness := 2; ui_extraversion := 3;
     ui_agreeableness := 4; ui_neuroticism := 5; ui_save_big_five := true;
     ui_ei := 0; ui_sn := 0; ui_tf := 0; ui_jp := 0; ui_save_mbti := true;
     ui_primary_type := 0; ui_wing := 0; ui_instinct := 0;
     ui_save_enneagram := true;
     ui_query := ""; ui_ask := false |}.

(** * Properties *)

(** ** Reasoning about runs *)

Section run_lemmas.
Context {A B : Type}.
Implicit Types (m : M A) (f : A → M B) (s : session_state).

Lemma result_bind m f s :
  result ((m ≫= f) s) =
  match result (m s) with
  | Ok a => result (f a (final (m s)))
  | Raise e => Raise e
  end.
Proof. unfold mbind, M_bind. by destruct (result (m s)). Qed.

Lemma final_bind m f s :
  final ((m ≫= f) s) =
  match result (m s) with
  | Ok a => final (f a (final (m s)))
  | Raise e => final (m s)
  end.
Proof. unfold mbind, M_bind. by destruct (result (m s)). Qed.

Lemma rendered_bind m f s :
  rendered ((m ≫= f) s) =
  match result (m s) with
  | Ok a => rendered (m s) ++ rendered (f a (final (m s)))
  | Raise e => rendered (m s)
  end.
Proof. unfold mbind, M_bind. by destruct (result (m s)). Qed.
End run_lemmas.

(** ** Rules of the program logic *)

Section keeps_rules.
Context (I : session_state → Prop).

Lemma keeps_ret {A} (a : A) (Q : A → Prop) : Q a → keeps I (mret a) Q.
Proof. intros HQ s Hs. split; [done|]. intros a' [= <-]. done. Qed.

Lemma keeps_raise {A} (e : exn) (Q : A → Prop) : keeps I (raise e) Q.
Proof. intros s Hs. split; [done|]. intros a [=]. Qed.

Lemma keeps_bind {A B} (m : M A) (f : A → M B) Q R :
  keeps I m Q → (∀ a, Q a → keeps I (f a) R) → keeps I (m ≫= f) R.
Proof.
  intros Hm Hf s Hs. destruct (Hm s Hs) as [Hfin Hres].
  rewrite final_bind, result_bind.
  destruct (result (m s)) as [a|e]; [|split; [done|intros ? [=]]].
  apply (Hf a); auto.
Qed.

Lemma keeps_weaken {A} (m : M A) (Q R : A → Prop) :
  keeps I m Q → (∀ a, Q a → R a) → keeps I m R.
Proof. intros Hm HQR s Hs. destruct (Hm s Hs). split; auto. Qed.

Lemma keeps_emit e : keeps I (emit e) (λ _, True).
Proof. intros s Hs. by split. Qed.

Lemma keeps_within {A} c (m : M A) Q : keeps I m Q → keeps I (within c m) Q.
Proof. intros Hm s Hs. exact (Hm s Hs). Qed.

Lemma keeps_get_personality_data :
  keeps I get_personality_data (λ _, True).
Proof. intros s Hs. by split. Qed.

Lemma keeps_get_initialized : keeps I get_initialized (λ _, True).
Proof. intros s Hs. by split. Qed.

Lemma keeps_getitem {V} (d : gmap string V) k :
  keeps I (getitem d k) (λ v, d !! k = Some v).
Proof.
  unfold getitem. destruct (d !! k) as [v|].
  - apply keeps_ret. done.
  - apply keeps_raise.
Qed.

Lemma keeps_str_head s :
  keeps I (str_head s) (λ h, ∃ c r, s = String c r ∧ h = String c "").
Proof.
  destruct s as [|c r]; simpl.
  - apply keeps_raise.
  - apply keeps_ret. eauto.
Qed.

Lemma keeps_st_slider label lo hi dflt v :
  keeps I (st_slider label lo hi dflt v) (λ x, x = v).
Proof.
  unfold st_slider. eapply keeps_bind; [apply keeps_emit|].
  intros _ _. by apply keeps_ret.
Qed.

Lemma keeps_st_radio label options i :
  keeps I (st_radio label options i) (λ o, options !! i = Some o).
Proof.
  unfold st_radio. eapply keeps_bind; [apply keeps_emit|].
  intros _ _. destruct (options !! i); [by apply keeps_ret|apply keeps_raise].
Qed.

Lemma keeps_st_selectbox {A} `{ToPy A} label (options : list A) i :
  keeps I (st_selectbox label options i) (λ o, options !! i = Some o).
Proof.
  unfold st_selectbox. eapply keeps_bind; [apply keeps_emit|].
  intros _ _. destruct (options !! i); [by apply keeps_ret|apply keeps_raise].
Qed.

Lemma keeps_st_button label b :
  keeps I (st_button label b) (λ x, x = b).
Proof.
  unfold st_button. eapply keeps_bind; [apply keeps_emit|].
  intros _ _. by apply keeps_ret.
Qed.

Lemma keeps_st_text_input label t :
  keeps I (st_text_input label t) (λ x, x = t).
Proof.
  unfold st_text_input. eapply keeps_bind; [apply keeps_emit|].
  intros _ _. by apply keeps_ret.
Qed.
End keeps_rules.

(** One call that only renders or reads. *)
Ltac keeps_prim :=
  first
    [ apply keeps_emit
    | apply keeps_get_personality_data
    | apply keeps_get_initialized
    | apply keeps_getitem
    | apply keeps_str_head
    | apply keeps_st_slider
    | apply keeps_st_radio
    | apply keeps_st_selectbox
    | apply keeps_st_button
    | apply keeps_st_text_input
    | apply keeps_raise ].

Ltac keeps_any := eapply keeps_weaken; [|intros ? _; exact Logic.I].

Ltac keeps_branch :=
  match goal with
  | |- keeps _ (if ?b then _ else _) _ => destruct b
  | |- keeps _ (match ?o with Some _ => _ | None => _ end) _ => destruct o
  end.

(** Discharges [keeps I m (λ _, True)] for a run made of the calls
    above. *)
Ltac keeps_render :=
  repeat first
    [ keeps_branch
    | apply keeps_within
    | keeps_any; keeps_prim
    | apply (keeps_ret _ _ (λ _, True)); exact Logic.I
    | eapply keeps_bind; [|intros ? _] ].

(** ** Views only read *)

Lemma home_page_keeps I : keeps I home_page (λ _, True).
Proof. unfold home_page, st_header, st_markdown. keeps_render. Qed.

Lemma chat_page_keeps I u : keeps I (chat_page u) (λ _, True).
Proof.
  unfold chat_page, st_header, st_markdown, st_warning, st_spinner, st_write,
    st_info.
  keeps_render.
Qed.

Lemma analytics_page_keeps I : keeps I analytics_page (λ _, True).
Proof.
  unfold analytics_page, st_header, st_markdown, st_warning, st_subheader,
    st_write, st_bar_chart, st_columns, st_column, st_progress.
  keeps_render.
Qed.

(** ** Well-formed stores *)

Lemma wf_profile_empty : wf_profile ∅.
Proof. intros k r. by rewrite lookup_empty. Qed.

Lemma wf_profile_insert d k r :
  stored_kind k r → wf_profile d → wf_profile (<[k := r]> d).
Proof.
  intros Hr Hd k' r'. rewrite lookup_insert.
  case_decide as Hk; [|by apply Hd].
  intros [= <-]. by subst k'.
Qed.

Lemma keeps_set_personality_data_item k r :
  stored_kind k r →
  keeps wf_session (set_personality_data_item k r) (λ _, True).
Proof.
  intros Hr s Hs. split; [|done].
  by apply wf_profile_insert.
Qed.

(** ** The forms store well-formed results *)

(** Binds the value of the next call, with what is known of it. *)
Tactic Notation "keeps_let" simple_intropattern(x) simple_intropattern(H) :=
  eapply keeps_bind; [keeps_prim|intros x H; cbv beta in *].

Lemma big_five_assessment_keeps u :
  keeps wf_session (big_five_assessment u) (λ _, True).
Proof.
  unfold big_five_assessment, st_subheader, st_markdown, st_success.
  keeps_let _ _. keeps_let _ _.
  keeps_let o _. keeps_let c _. keeps_let e _. keeps_let a _. keeps_let n _.
  keeps_let pressed _.
  destruct pressed; [|by apply keeps_ret].
  eapply keeps_bind; [|intros ? _; apply keeps_emit].
  apply keeps_set_personality_data_item.
  left. split; [done|]. by exists o, c, e, a, n.
Qed.

(** The first character of the chosen label is the first character of one
    of the two labels offered. *)
Lemma radio_first_letter (options : list string) (i : nat) (o h a b : string) :
  Forall2 (λ opt l, ∃ c r, opt = String c r ∧ l = String c "") options [a; b] →
  options !! i = Some o →
  (∃ c r, o = String c r ∧ h = String c "") →
  h ∈ [a; b].
Proof.
  intros Hopts Hi (c & r & -> & ->).
  destruct (Forall2_lookup_l _ _ _ _ _ Hopts Hi)
    as (l & Hl & c' & r' & Heq & ->).
  injection Heq as <- <-.
  by eapply list_elem_of_lookup_2.
Qed.

Lemma str_head_unique (x h1 h2 : string) :
  (∃ c r, x = String c r ∧ h1 = String c "") →
  (∃ c r, x = String c r ∧ h2 = String c "") →
  h2 = h1.
Proof. intros (? & ? & -> & ->) (? & ? & [= <- <-] & ->). done. Qed.

Lemma mbti_assessment_keeps u :
  keeps wf_session (mbti_assessment u) (λ _, True).
Proof.
  unfold mbti_assessment, st_subheader, st_markdown, st_write, st_success.
  keeps_let _ _. keeps_let _ _.
  keeps_let ei Hei. keeps_let sn Hsn. keeps_let tf Htf. keeps_let jp Hjp.
  keeps_let ei0 Hei0. keeps_let sn0 Hsn0. keeps_let tf0 Htf0.
  keeps_let jp0 Hjp0.
  keeps_let _ _. keeps_let pressed _.
  destruct pressed; [|by apply keeps_ret].
  keeps_let ei1 Hei1. keeps_let sn1 Hsn1. keeps_let tf1 Htf1.
  keeps_let jp1 Hjp1.
  eapply keeps_bind; [|intros ? _; apply keeps_emit].
  apply keeps_set_personality_data_item.
  right; left. split; [done|].
  rewrite (str_head_unique _ _ _ Hei0 Hei1), (str_head_unique _ _ _ Hsn0 Hsn1),
    (str_head_unique _ _ _ Htf0 Htf1), (str_head_unique _ _ _ Hjp0 Hjp1).
  exists ei0, sn0, tf0, jp0. split_and!; [..|done].
  - eapply (radio_first_letter ei_options); [|done..].
    repeat constructor; eauto.
  - eapply (radio_first_letter sn_options); [|done..].
    repeat constructor; eauto.
  - eapply (radio_first_letter tf_options); [|done..].
    repeat constructor; eauto.
  - eapply (radio_first_letter jp_options); [|done..].
    repeat constructor; eauto.
Qed.

Lemma enneagram_assessment_keeps u :
  keeps wf_session (enneagram_assessment u) (λ _, True).
Proof.
  unfold enneagram_assessment, st_subheader, st_markdown, st_success.
  keeps_let _ _. keeps_let _ _.
  keeps_let p Hp. keeps_let w Hw. keeps_let i Hi. keeps_let pressed _.
  destruct pressed; [|by apply keeps_ret].
  eapply keeps_bind; [|intros ? _; apply keeps_emit].
  apply keeps_set_personality_data_item.
  right; right. split; [done|].
  exists p, w, i. split_and!; [| |by eapply list_elem_of_lookup_2..|done].
  - apply list_elem_of_lookup_2 in Hp.
    apply list_elem_of_fmap in Hp as (k & -> & _). lia.
  - apply list_elem_of_lookup_2 in Hp.
    apply list_elem_of_fmap in Hp as (k & -> & Hk).
    apply elem_of_seq in Hk. simpl in Hk. lia.
Qed.

Lemma assessment_page_keeps u :
  keeps wf_session (assessment_page u) (λ _, True).
Proof.
  unfold assessment_page, st_header.
  keeps_let _ _. keeps_let ty _.
  repeat case_bool_decide;
    auto using big_five_assessment_keeps, mbti_assessment_keeps,
      enneagram_assessment_keeps.
  by apply keeps_ret.
Qed.

Lemma main_keeps u : keeps wf_session (main u) (λ _, True).
Proof.
  unfold main, st_title, st_sidebar, st_spinner.
  keeps_let _ _.
  eapply keeps_bind; [apply keeps_within; keeps_prim|intros _ _].
  eapply keeps_bind; [apply keeps_within; keeps_prim|intros page _].
  keeps_let init _.
  eapply keeps_bind.
  { instantiate (1 := λ _, True).
    destruct (negb init); [|by apply keeps_ret].
    intros s Hs. by split. }
  intros _ _.
  repeat case_bool_decide;
    auto using home_page_keeps, assessment_page_keeps, chat_page_keeps,
      analytics_page_keeps.
  by apply keeps_ret.
Qed.

(** Every state a session reaches stores only well-formed results. *)
Lemma run_session_from_keeps us s :
  wf_session s → wf_session (foldl (λ s u, final (main u s)) s us).
Proof.
  revert s. induction us as [|u us IH]; intros s Hs; simpl; [done|].
  apply IH. by apply (main_keeps u s).
Qed.

Lemma reachable_wf s : reachable s → wf_session s.
Proof.
  intros [us ->]. apply run_session_from_keeps. apply wf_profile_empty.
Qed.

(** ** Enneagram wings *)

Lemma wing_options_spec p w :
  w ∈ wing_options p ↔ (w = p - 1 ∨ w = p + 1) ∧ 1 ≤ w ≤ 9.
Proof.
  unfold wing_options. rewrite list_elem_of_filter.
  rewrite !elem_of_cons, elem_of_nil. tauto.
Qed.

Lemma wing_options_cases p :
  1 ≤ p ≤ 9 →
  (p = 1 ∧ wing_options p = [2]) ∨
  (p = 9 ∧ wing_options p = [8]) ∨
  (1 < p < 9 ∧ wing_options p = [p - 1; p + 1]).
Proof.
  intros Hp.
  assert (p = 1 ∨ p = 9 ∨ 1 < p < 9) as [->|[->|H]] by lia;
    [by left|by right; left|right; right; split; [done|]].
  unfold wing_options. rewrite !filter_cons, filter_nil.
  repeat case_decide; (done || lia).
Qed.

(** C3, as the code has it: the neighbours of the primary type are not
    taken around the circle.  Type 1 is offered wing 2 only, type 9 is
    offered wing 8 only, and type 5 is offered wings 4 and 6, and these are
    the options of the Wing select box the form renders; neither 0 nor 10 is
    ever offered. *)
Theorem wing_options_at_1_9_5 :
  wing_options 1 = [2] ∧ wing_options 9 = [8] ∧ wing_options 5 = [4; 6] ∧
  (∀ p, (0 ∉ wing_options p) ∧ (10 ∉ wing_options p)) ∧
  (∀ s,
     ElSelectbox "Wing" [PyInt 2]
       ∈ rendered (enneagram_assessment (enneagram_ui_at 0 0) s) ∧
     ElSelectbox "Wing" [PyInt 8]
       ∈ rendered (enneagram_assessment (enneagram_ui_at 8 0) s) ∧
     ElSelectbox "Wing" [PyInt 4; PyInt 6]
       ∈ rendered (enneagram_assessment (enneagram_ui_at 4 0) s)).
Proof.
  split_and!; [done..| |].
  - intros p. rewrite !wing_options_spec. lia.
  - intros s.
    split_and!;
      by repeat first [apply list_elem_of_here|apply list_elem_of_further].
Qed.

(** C3 as stated fails: the wings offered for type 1 are not {9, 2}, since
    9 is not among them, and likewise 1 is not offered for type 9. *)
Lemma wing_options_do_not_wrap :
  ¬ (list_to_set (wing_options 1) = ({[9; 2]} : gset Z) ∧
     list_to_set (wing_options 9) = ({[8; 1]} : gset Z) ∧
     list_to_set (wing_options 5) = ({[4; 6]} : gset Z)).
Proof.
  intros (H1 & _ & _).
  assert (9 ∈ (list_to_set (wing_options 1) : gset Z)) as H9
    by (rewrite H1; set_solver).
  rewrite elem_of_list_to_set, wing_options_spec in H9. lia.
Qed.

(** C4: for a primary type in 1..9 the wing candidates are the neighbours
    p-1 and p+1 that lie in 1..9, one candidate at p = 1 and p = 9 and two
    otherwise; and whatever Enneagram result a session has stored, its wing
    is a candidate of its primary type. *)
Theorem wing_candidates :
  (∀ p, 1 ≤ p ≤ 9 →
     NoDup (wing_options p) ∧
     (∀ w, w ∈ wing_options p ↔ (w = p - 1 ∨ w = p + 1) ∧ 1 ≤ w ≤ 9) ∧
     length (wing_options p) = if bool_decide (p = 1 ∨ p = 9) then 1%nat
                               else 2%nat) ∧
  (∀ s r, reachable s → personality_data s !! "enneagram" = Some r →
     ∃ p w i, r = enneagram_record p w i ∧ 1 ≤ p ≤ 9 ∧ w ∈ wing_options p).
Proof.
  split.
  - intros p Hp. split_and!.
    + destruct (wing_options_cases p Hp) as [[_ H]|[[_ H]|[_ H]]];
        rewrite H; try apply NoDup_singleton.
      apply NoDup_cons. split; [|apply NoDup_singleton].
      rewrite list_elem_of_singleton. lia.
    + intros w. apply wing_options_spec.
    + destruct (wing_options_cases p Hp) as [[Hc H]|[[Hc H]|[Hc H]]];
        rewrite H; case_bool_decide; simpl; (done || lia).
  - intros s r Hs Hr.
    destruct (reachable_wf s Hs _ _ Hr)
      as [[[=] _]|[[[=] _]|[_ (p & w & i & Hp & Hw & _ & ->)]]].
    by exists p, w, i.
Qed.

(** At primary type 1, and in the session that saves the Enneagram form
    with primary type 1 and the only wing offered. *)
Lemma wing_candidates_witness :
  (NoDup (wing_options 1) ∧
   (∀ w, w ∈ wing_options 1 ↔ (w = 1 - 1 ∨ w = 1 + 1) ∧ 1 ≤ w ≤ 9) ∧
   length (wing_options 1) = 1%nat) ∧
  (∃ p w i, enneagram_record 1 2 "Social (so)" = enneagram_record p w i ∧
            1 ≤ p ≤ 9 ∧ w ∈ wing_options p).
Proof.
  split.
  - apply (proj1 wing_candidates 1). lia.
  - apply (proj2 wing_candidates (run_session [enneagram_ui])).
    + by exists [enneagram_ui].
    + reflexivity.
Defined.

(** ** Saving the Big Five form *)

(** C5: a Big Five submission with scores in the sliders' range 1..100
    returns normally and leaves, under ["big_five"], exactly the record of
    the five scores. *)
Theorem big_five_saved u s :
  1 ≤ ui_openness u ≤ 100 →
  1 ≤ ui_conscientiousness u ≤ 100 →
  1 ≤ ui_extraversion u ≤ 100 →
  1 ≤ ui_agreeableness u ≤ 100 →
  1 ≤ ui_neuroticism u ≤ 100 →
  ui_save_big_five u = true →
  result (big_five_assessment u s) = Ok tt ∧
  personality_data (final (big_five_assessment u s)) !! "big_five" =
    Some ({[ "openness" := PyInt (ui_openness u);
             "conscientiousness" := PyInt (ui_conscientiousness u);
             "extraversion" := PyInt (ui_extraversion u);
             "agreeableness" := PyInt (ui_agreeableness u);
             "neuroticism" := PyInt (ui_neuroticism u) ]} : record).
Proof.
  intros _ _ _ _ _ Hsave. destruct u; simpl in *; subst.
  split; [done|]. apply lookup_insert_eq.
Qed.

(** The submission 80, 40, 60, 70, 30 in a fresh session. *)
Lemma big_five_saved_witness :
  result (big_five_assessment big_five_ui fresh_session) = Ok tt ∧
  personality_data (final (big_five_assessment big_five_ui fresh_session))
    !! "big_five" =
    Some ({[ "openness" := PyInt 80;
             "conscientiousness" := PyInt 40;
             "extraversion" := PyInt 60;
             "agreeableness" := PyInt 70;
             "neuroticism" := PyInt 30 ]} : record).
Proof.
  apply (big_five_saved big_five_ui fresh_session);
    (reflexivity || (simpl; lia)).
Defined.

(** ** The store keeps one result per kind *)

Lemma filter_key_absent {V} (l : list (string * V)) k :
  k ∉ l.*1 → filter (λ kv, kv.1 = k) l = [].
Proof.
  induction l as [|[k' v'] l IH]; simpl; [done|].
  rewrite not_elem_of_cons. intros [Hne Hl].
  rewrite filter_cons. simpl. rewrite decide_False by done. by apply IH.
Qed.

Lemma one_entry_per_key {V} (l : list (string * V)) k v :
  NoDup l.*1 → (k, v) ∈ l → filter (λ kv, kv.1 = k) l = [(k, v)].
Proof.
  induction l as [|[k' v'] l IH]; simpl; intros Hnd Hin.
  - by apply elem_of_nil in Hin.
  - apply NoDup_cons in Hnd as [Hk' Hnd].
    rewrite filter_cons. simpl.
    apply elem_of_cons in Hin as [[= <- <-]|Hin].
    + rewrite decide_True by done. f_equal. by apply filter_key_absent.
    + rewrite decide_False; [by apply IH|].
      intros ->. apply Hk'. apply list_elem_of_fmap. by exists (k, v).
Qed.

(** C6: the store holds at most one result per kind.  Writing [b] under a
    kind that holds [a] leaves [b] there and nothing of [a]: the store is the
    one that writing [b] alone gives, and its items hold a single entry for
    the kind.  So two Big Five submissions leave the record of the second. *)
Theorem resubmission_replaces :
  (∀ k a b s,
     let s' := final ((set_personality_data_item k a;;
                       set_personality_data_item k b) s) in
     personality_data s' !! k = Some b ∧
     s' = final (set_personality_data_item k b s) ∧
     filter (λ kv, kv.1 = k) (map_to_list (personality_data s')) = [(k, b)]) ∧
  (∀ ua ub s,
     ui_save_big_five ua = true → ui_save_big_five ub = true →
     let s' := final (big_five_assessment ub
                        (final (big_five_assessment ua s))) in
     personality_data s' !! "big_five" =
       Some (big_five_record (ui_openness ub) (ui_conscientiousness ub)
               (ui_extraversion ub) (ui_agreeableness ub)
               (ui_neuroticism ub)) ∧
     s' = final (big_five_assessment ub s)).
Proof.
  split.
  - intros k a b s. simpl. split_and!.
    + apply lookup_insert_eq.
    + unfold set_personality_data_item, with_personality_data. simpl.
      by rewrite insert_insert_eq.
    + apply one_entry_per_key; [apply NoDup_fst_map_to_list|].
      apply elem_of_map_to_list, lookup_insert_eq.
  - intros ua ub s Ha Hb. destruct ua, ub; simpl in *; subst.
    split; [apply lookup_insert_eq|].
    unfold big_five_assessment. simpl.
    unfold with_personality_data. simpl. by rewrite insert_insert_eq.
Qed.

(** Two Big Five submissions in a row, from a fresh session. *)
Lemma resubmission_replaces_witness :
  let s' := final (big_five_assessment big_five_ui
                     (final (big_five_assessment earlier_big_five_ui
                               fresh_session))) in
  personality_data s' !! "big_five" = Some (big_five_record 80 40 60 70 30) ∧
  s' = final (big_five_assessment big_five_ui fresh_session).
Proof.
  apply (proj2 resubmission_replaces earlier_big_five_ui big_five_ui
           fresh_session); reflexivity.
Defined.

(** ** The MBTI form *)

(** The derived type is made of the first characters of the four chosen
    labels, in the order ei, sn, tf, jp: it is shown, and on Save it is
    stored with the four characters. *)
Lemma mbti_type_first_characters u s l1 l2 l3 l4 :
  ei_options !! ui_ei u = Some l1 →
  sn_options !! ui_sn u = Some l2 →
  tf_options !! ui_tf u = Some l3 →
  jp_options !! ui_jp u = Some l4 →
  ∃ c1 c2 c3 c4 r1 r2 r3 r4,
    l1 = String c1 r1 ∧ l2 = String c2 r2 ∧
    l3 = String c3 r3 ∧ l4 = String c4 r4 ∧
    let ty := String c1 (String c2 (String c3 (String c4 ""))) in
    result (mbti_assessment u s) = Ok tt ∧
    written (rendered (mbti_assessment u s)) = ["Your MBTI type: " +:+ ty] ∧
    (ui_save_mbti u = true →
     personality_data (final (mbti_assessment u s)) !! "mbti" =
       Some (mbti_record ty (String c1 "") (String c2 "") (String c3 "")
               (String c4 ""))).
Proof.
  destruct u as [? ? ? ? ? ? ? ? i1 i2 i3 i4 save ? ? ? ? ? ?]. simpl.
  intros H1 H2 H3 H4.
  destruct i1 as [|[|?]]; try discriminate H1; injection H1 as <-;
  destruct i2 as [|[|?]]; try discriminate H2; injection H2 as <-;
  destruct i3 as [|[|?]]; try discriminate H3; injection H3 as <-;
  destruct i4 as [|[|?]]; try discriminate H4; injection H4 as <-;
  destruct save; do 8 eexists; cbv zeta; split_and!;
    try reflexivity; try discriminate; intros _; apply lookup_insert_eq.
Qed.

(** The type shown and stored for the choice Extraversion, Sensing,
    Thinking, Perceiving. *)
Lemma mbti_type_first_characters_witness :
  ∃ c1 c2 c3 c4 r1 r2 r3 r4,
    "Extraversion (E)" = String c1 r1 ∧ "Sensing (S)" = String c2 r2 ∧
    "Thinking (T)" = String c3 r3 ∧ "Perceiving (P)" = String c4 r4 ∧
    let ty := String c1 (String c2 (String c3 (String c4 ""))) in
    result (mbti_assessment estp_ui fresh_session) = Ok tt ∧
    written (rendered (mbti_assessment estp_ui fresh_session)) =
      ["Your MBTI type: " +:+ ty] ∧
    (ui_save_mbti estp_ui = true →
     personality_data (final (mbti_assessment estp_ui fresh_session))
       !! "mbti" =
       Some (mbti_record ty (String c1 "") (String c2 "") (String c3 "")
               (String c4 ""))).
Proof.
  apply (mbti_type_first_characters estp_ui fresh_session); reflexivity.
Defined.

(** C1 at the choice Introversion (I), Intuition (N), Feeling (F),
    Judging (J): the labels are the ones chosen, and the type the form shows
    and stores is "IIFJ", the second character being the first character of
    "Intuition (N)". *)
Theorem mbti_infj_choice_gives_iifj s :
  ei_options !! ui_ei infj_ui = Some "Introversion (I)" ∧
  sn_options !! ui_sn infj_ui = Some "Intuition (N)" ∧
  tf_options !! ui_tf infj_ui = Some "Feeling (F)" ∧
  jp_options !! ui_jp infj_ui = Some "Judging (J)" ∧
  written (rendered (mbti_assessment infj_ui s)) = ["Your MBTI type: IIFJ"] ∧
  (personality_data (final (mbti_assessment infj_ui s)) !! "mbti"
     ≫= (.!! "type")) = Some (PyStr "IIFJ").
Proof.
  split_and!; try reflexivity.
  simpl. rewrite lookup_insert_eq. reflexivity.
Qed.

(** C2 at the same submission: the stored result has "I" in its [sn] field,
    which is neither "S" nor "N", and "I" again as the second character of
    its type. *)
Theorem mbti_saved_sn_is_first_letter s :
  personality_data (final (mbti_assessment infj_ui s)) !! "mbti" =
    Some (mbti_record "IIFJ" "I" "I" "F" "J") ∧
  mbti_record "IIFJ" "I" "I" "F" "J" !! "sn" = Some (PyStr "I") ∧
  PyStr "I" ∉ [PyStr "S"; PyStr "N"].
Proof.
  split_and!.
  - apply lookup_insert_eq.
  - reflexivity.
  - rewrite !not_elem_of_cons. split_and!; [discriminate..|apply not_elem_of_nil].
Qed.

(** ** Views *)

(** C9: rendering the Chat view or the Analytics view leaves
    [personality_data] as it was, whatever it holds and whether or not the
    view runs to its end. *)
Theorem views_leave_profile_unchanged u s :
  personality_data (final (chat_page u s)) = personality_data s ∧
  personality_data (final (analytics_page s)) = personality_data s.
Proof.
  split.
  - by apply (chat_page_keeps (λ s', personality_data s' = personality_data s)).
  - by apply
      (analytics_page_keeps (λ s', personality_data s' = personality_data s)).
Qed.

Lemma dict_truthy_empty {V} : dict_truthy (∅ : gmap string V) = false.
Proof. unfold dict_truthy. by rewrite bool_decide_true. Qed.

Lemma dict_truthy_nonempty {V} (d : gmap string V) :
  d ≠ ∅ → dict_truthy d = true.
Proof. intros H. unfold dict_truthy. by rewrite bool_decide_false. Qed.

Lemma chat_page_empty u s :
  personality_data s = ∅ →
  chat_page u s =
  Outcome (Ok tt) s
    [ElHeader "Chat with Your Past Self";
     ElWarning
       "Please complete at least one personality assessment before chatting."].
Proof.
  intros H. unfold chat_page, mbind, M_bind, st_header, emit,
    get_personality_data. simpl. rewrite H, dict_truthy_empty. reflexivity.
Qed.

Lemma chat_page_nonempty u s :
  personality_data s ≠ ∅ →
  chat_page u s =
  Outcome (Ok tt) s (ElHeader "Chat with Your Past Self" :: chat_body u).
Proof.
  intros H. unfold chat_page, chat_body, mbind, M_bind, st_header, emit,
    get_personality_data. simpl. rewrite (dict_truthy_nonempty _ H). simpl.
  destruct (ui_query u), (ui_ask u); reflexivity.
Qed.

(** C8: with something stored and a non-empty question, every answer the
    Chat view gives contains the question as typed, pressing Ask gives
    exactly the templated answer, and what the view renders and returns is
    the same for any two non-empty stores. *)
Theorem chat_response_echoes_query u s1 s2 :
  ui_query u ≠ "" →
  personality_data s1 ≠ ∅ →
  personality_data s2 ≠ ∅ →
  (ui_ask u = true →
   responses (rendered (chat_page u s1)) = [chat_response (ui_query u)]) ∧
  (∀ r, r ∈ responses (rendered (chat_page u s1)) →
        is_substring (ui_query u) r) ∧
  rendered (chat_page u s1) = rendered (chat_page u s2) ∧
  result (chat_page u s1) = result (chat_page u s2).
Proof.
  intros Hq H1 H2. rewrite !chat_page_nonempty by done. simpl.
  unfold chat_body.
  destruct (ui_query u) as [|c q] eqn:Eq; [done|]. simpl.
  split_and!; [by intros ->| |done..].
  intros r. destruct (ui_ask u); simpl; [|by intros ?%elem_of_nil].
  intros ->%list_elem_of_singleton.
  exists ("Based on your personality data, your past self might say: "
          +:+ "I would need to think about '"),
    "' carefully before responding.".
  reflexivity.
Qed.

Lemma run_session_big_five_nonempty :
  personality_data (run_session [big_five_ui]) ≠ ∅.
Proof.
  intros H. apply (f_equal (λ d, d !! "big_five")) in H.
  rewrite lookup_empty in H. discriminate H.
Qed.

Lemma run_session_infj_nonempty :
  personality_data (run_session [infj_ui]) ≠ ∅.
Proof.
  intros H. apply (f_equal (λ d, d !! "mbti")) in H.
  rewrite lookup_empty in H. discriminate H.
Qed.

(** The question "What should I do?" asked after a Big Five submission and
    after an MBTI submission. *)
Lemma chat_response_echoes_query_witness :
  (ui_ask asking_ui = true →
   responses (rendered (chat_page asking_ui (run_session [big_five_ui]))) =
     [chat_response "What should I do?"]) ∧
  (∀ r, r ∈ responses
              (rendered (chat_page asking_ui (run_session [big_five_ui]))) →
        is_substring "What should I do?" r) ∧
  rendered (chat_page asking_ui (run_session [big_five_ui])) =
    rendered (chat_page asking_ui (run_session [infj_ui])) ∧
  result (chat_page asking_ui (run_session [big_five_ui])) =
    result (chat_page asking_ui (run_session [infj_ui])).
Proof.
  apply (chat_response_echoes_query asking_ui (run_session [big_five_ui])
           (run_session [infj_ui])).
  - discriminate.
  - exact run_session_big_five_nonempty.
  - exact run_session_infj_nonempty.
Defined.

(** C10: with something stored, the Chat view answers exactly when the
    question is non-empty and Ask was pressed; an empty question gets no
    answer, and not even the Ask button. *)
Theorem chat_needs_query_and_trigger u s :
  personality_data s ≠ ∅ →
  responses (rendered (chat_page u s)) =
    (if str_truthy (ui_query u) && ui_ask u
     then [chat_response (ui_query u)] else []) ∧
  (ui_query u = "" →
   responses (rendered (chat_page u s)) = [] ∧
   ElButton "Ask" ∉ rendered (chat_page u s)) ∧
  (responses (rendered (chat_page u s)) ≠ [] ↔
   ui_query u ≠ "" ∧ ui_ask u = true).
Proof.
  intros H. rewrite chat_page_nonempty by done. simpl. unfold chat_body.
  destruct (ui_query u) as [|c q], (ui_ask u); simpl; split_and!;
    try done; try (intros [=]).
  all: try (split; [done|]).
  all: try (intros [? ?]; done).
  all: try (rewrite !not_elem_of_cons; split_and!; try done;
            apply not_elem_of_nil).
Qed.

(** Ask pressed on an empty question, after a Big Five submission. *)
Lemma chat_needs_query_and_trigger_witness :
  responses (rendered (chat_page silent_ui (run_session [big_five_ui]))) =
    (if str_truthy (ui_query silent_ui) && ui_ask silent_ui
     then [chat_response (ui_query silent_ui)] else []) ∧
  (ui_query silent_ui = "" →
   responses (rendered (chat_page silent_ui (run_session [big_five_ui]))) = [] ∧
   ElButton "Ask" ∉ rendered (chat_page silent_ui (run_session [big_five_ui]))) ∧
  (responses (rendered (chat_page silent_ui (run_session [big_five_ui]))) ≠ []
   ↔ ui_query silent_ui ≠ "" ∧ ui_ask silent_ui = true).
Proof.
  apply (chat_needs_query_and_trigger silent_ui (run_session [big_five_ui])).
  exact run_session_big_five_nonempty.
Defined.

(** ** Running a view step by step *)

Lemma run_bind_ret {A B} (a : A) (f : A → M B) s : (mret a ≫= f) s = f a s.
Proof. unfold mbind, M_bind. simpl. by destruct (f a s). Qed.

Lemma run_bind_emit {B} e (g : unit → M B) s :
  (emit e ≫= g) s = prepend [e] (g tt s).
Proof. reflexivity. Qed.

Lemma run_bind_get_personality_data {B} (h : profile → M B) s :
  (get_personality_data ≫= h) s = h (personality_data s) s.
Proof. unfold mbind, M_bind. simpl. by destruct (h _ s). Qed.

Lemma run_bind_getitem {B V} (d : gmap string V) k v (h : V → M B) s :
  d !! k = Some v → (getitem d k ≫= h) s = h v s.
Proof. intros H. unfold getitem. rewrite H. apply run_bind_ret. Qed.

Lemma run_bind_assoc {A B C} (m : M C) (h : C → M A) (f : A → M B) s :
  ((m ≫= h) ≫= f) s = (m ≫= λ c, h c ≫= f) s.
Proof.
  unfold mbind, M_bind. destruct (m s) as [[c|e] s1 l1]; simpl; [|done].
  destruct (h c s1) as [[a|e] s2 l2]; simpl; [|done].
  by rewrite app_assoc.
Qed.

Lemma run_within_emit {B} c e (g : unit → M B) s :
  (within c (emit e) ≫= g) s = prepend [c e] (g tt s).
Proof. reflexivity. Qed.

Lemma run_within_bind_emit {A B} c e (h : unit → M A) (f : A → M B) s :
  (within c (emit e ≫= h) ≫= f) s = prepend [c e] ((within c (h tt) ≫= f) s).
Proof.
  unfold mbind, M_bind, within, emit, prepend. simpl.
  destruct (h tt s) as [[a|e'] s1 l1]; simpl; [|done].
  by destruct (f a s1).
Qed.

Lemma run_within_bind_getitem {A B V} c (d : gmap string V) k v
    (h : V → M A) (f : A → M B) s :
  d !! k = Some v →
  (within c (getitem d k ≫= h) ≫= f) s = (within c (h v) ≫= f) s.
Proof.
  intros H. unfold getitem. rewrite H.
  unfold mbind, M_bind, within, mret, M_ret. simpl.
  by destruct (h v s) as [[a|e'] s1 l1].
Qed.

Lemma prepend_outcome {A} l (r : res A) s l' :
  prepend l (Outcome r s l') = Outcome r s (l ++ l').
Proof. reflexivity. Qed.

Lemma dict_contains_Some {V} (d : gmap string V) k v :
  d !! k = Some v → dict_contains d k = true.
Proof. unfold dict_contains. by intros ->. Qed.

Lemma dict_contains_None {V} (d : gmap string V) k :
  d !! k = None → dict_contains d k = false.
Proof. unfold dict_contains. by intros ->. Qed.

(** One step of a view on a store whose lookups are known. *)
Ltac run_step :=
  first
    [ rewrite run_bind_assoc
    | rewrite run_bind_emit
    | rewrite run_bind_ret
    | rewrite run_bind_get_personality_data
    | erewrite run_bind_getitem by (eassumption || reflexivity)
    | rewrite run_within_bind_emit
    | erewrite run_within_bind_getitem by (eassumption || reflexivity)
    | rewrite run_within_emit
    | erewrite dict_contains_Some by eassumption
    | rewrite dict_contains_None by assumption ];
  cbv beta iota.

(** ** The Analytics view on what a session can have stored *)

(** On a non-empty store of well-formed results the Analytics view returns
    normally, and renders one section per stored kind, in the order Big
    Five, MBTI, Enneagram. *)
Lemma analytics_page_stored s :
  wf_session s →
  personality_data s ≠ ∅ →
  ∃ l1 l2 l3,
    analytics_page s =
      Outcome (Ok tt) s
        (ElHeader "Personality Analytics" :: ElMarkdown analytics_page_text
         :: l1 ++ l2 ++ l3) ∧
    match personality_data s !! "big_five" with
    | Some r =>
        ∃ o c e a n, r = big_five_record o c e a n ∧
                     l1 = big_five_section o c e a n
    | None => l1 = []
    end ∧
    match personality_data s !! "mbti" with
    | Some r =>
        ∃ ei sn tf jp,
          ei ∈ ["E"; "I"] ∧ sn ∈ ["S"; "I"] ∧ tf ∈ ["T"; "F"] ∧
          jp ∈ ["J"; "P"] ∧
          r = mbti_record (ei +:+ sn +:+ tf +:+ jp) ei sn tf jp ∧
          l2 = mbti_section (ei +:+ sn +:+ tf +:+ jp) ei sn tf jp
    | None => l2 = []
    end ∧
    match personality_data s !! "enneagram" with
    | Some r =>
        ∃ p w i, 1 ≤ p ≤ 9 ∧ w ∈ wing_options p ∧ i ∈ instinct_options ∧
                 r = enneagram_record p w i ∧ l3 = enneagram_section p w i
    | None => l3 = []
    end.
Proof.
  intros Hwf Hne.
  destruct (personality_data s !! "big_five") as [r1|] eqn:Hbf;
    [destruct (Hwf _ _ Hbf)
       as [[_ (o & c & e & a & n & ->)]|[[[=] _]|[[=] _]]];
     exists (big_five_section o c e a n)
    |exists []].
  all: destruct (personality_data s !! "mbti") as [r2|] eqn:Hmb;
    [destruct (Hwf _ _ Hmb)
       as [[[=] _]|[[_ (ei & sn & tf & jp & ? & ? & ? & ? & ->)]|[[=] _]]];
     exists (mbti_section (ei +:+ sn +:+ tf +:+ jp) ei sn tf jp)
    |exists []].
  all: destruct (personality_data s !! "enneagram") as [r3|] eqn:Hen;
    [destruct (Hwf _ _ Hen)
       as [[[=] _]|[[[=] _]|[_ (p & w & i & ? & ? & ? & ->)]]];
     exists (enneagram_section p w i)
    |exists []].
  all: split; [|split_and!; eauto 12].
  all: unfold analytics_page, st_header, st_markdown, st_warning,
         st_subheader, st_write, st_bar_chart, st_columns, st_column,
         st_progress;
       do 2 run_step;
       rewrite (dict_truthy_nonempty _ Hne); cbn [negb];
       repeat run_step;
       reflexivity.
Qed.

(** ** The sections of the Analytics view and the projections *)

Lemma py_eq_str a b : py_eq (PyStr a) (PyStr b) = bool_decide (a = b).
Proof.
  unfold py_eq. apply bool_decide_ext. split; [by intros [= ->]|by intros ->].
Qed.

Section observations.
Context {T : Type} (pick : elem → option T).

Lemma omap_sections h1 h2 (l1 l2 l3 : list elem) :
  pick h1 = None → pick h2 = None →
  omap pick (h1 :: h2 :: l1 ++ l2 ++ l3) =
  omap pick l1 ++ omap pick l2 ++ omap pick l3.
Proof. intros H1 H2. simpl. rewrite H1, H2. by rewrite !omap_app. Qed.
End observations.

Section section_tables.
Context (o c e a n : Z) (ty ei sn tf jp : string) (p w : Z) (i : string).

Lemma warnings_big_five : warnings (big_five_section o c e a n) = [].
Proof. reflexivity. Qed.
Lemma warnings_mbti : warnings (mbti_section ty ei sn tf jp) = [].
Proof. reflexivity. Qed.
Lemma warnings_enneagram : warnings (enneagram_section p w i) = [].
Proof. reflexivity. Qed.

Lemma charts_big_five :
  charts (big_five_section o c e a n) = [spec_bar_series o c e a n].
Proof. reflexivity. Qed.
Lemma charts_mbti : charts (mbti_section ty ei sn tf jp) = [].
Proof. reflexivity. Qed.
Lemma charts_enneagram : charts (enneagram_section p w i) = [].
Proof. reflexivity. Qed.

Lemma progress_bars_big_five :
  progress_bars (big_five_section o c e a n) = [].
Proof. reflexivity. Qed.
Lemma progress_bars_mbti :
  progress_bars (mbti_section ty ei sn tf jp) =
  spec_mbti_indicators ei sn tf jp.
Proof.
  unfold spec_mbti_indicators, spec_indicator. rewrite <- !py_eq_str.
  reflexivity.
Qed.
Lemma progress_bars_enneagram :
  progress_bars (enneagram_section p w i) = [].
Proof. reflexivity. Qed.

Lemma written_big_five : written (big_five_section o c e a n) = [].
Proof. reflexivity. Qed.
Lemma written_mbti :
  written (mbti_section ty ei sn tf jp) =
  ["Your type: " +:+ ty;
   "Energy orientation:"; shown_pole ei "E" "I";
   "Information gathering:"; shown_pole sn "S" "N";
   "Decision making:"; shown_pole tf "T" "F";
   "Lifestyle:"; shown_pole jp "J" "P"].
Proof. reflexivity. Qed.
Lemma written_enneagram :
  written (enneagram_section p w i) = [spec_enneagram_line p w i].
Proof. reflexivity. Qed.
End section_tables.

Lemma warnings_nil : warnings [] = [].
Proof. reflexivity. Qed.
Lemma charts_nil : charts [] = [].
Proof. reflexivity. Qed.
Lemma progress_bars_nil : progress_bars [] = [].
Proof. reflexivity. Qed.
Lemma written_nil : written [] = [].
Proof. reflexivity. Qed.

Create Rewrite HintDb sections.
#[export] Hint Rewrite warnings_nil charts_nil progress_bars_nil written_nil
  @app_nil_r @app_nil_l : sections.
#[export] Hint Rewrite warnings_big_five warnings_mbti warnings_enneagram
  charts_big_five charts_mbti charts_enneagram
  progress_bars_big_five progress_bars_mbti progress_bars_enneagram
  written_big_five written_mbti written_enneagram : sections.

Section views_sections.
Context (t1 t2 : string) (l1 l2 l3 : list elem).
Let out := ElHeader t1 :: ElMarkdown t2 :: l1 ++ l2 ++ l3.

Lemma warnings_sections :
  warnings out = warnings l1 ++ warnings l2 ++ warnings l3.
Proof. unfold warnings. by apply omap_sections. Qed.

Lemma charts_sections : charts out = charts l1 ++ charts l2 ++ charts l3.
Proof. unfold charts. by apply omap_sections. Qed.

Lemma progress_bars_sections :
  progress_bars out =
  progress_bars l1 ++ progress_bars l2 ++ progress_bars l3.
Proof. unfold progress_bars. by apply omap_sections. Qed.

Lemma written_sections :
  written out = written l1 ++ written l2 ++ written l3.
Proof. unfold written. by apply omap_sections. Qed.
End views_sections.

Lemma spec_enneagram_line_head p w i :
  ∃ rest, spec_enneagram_line p w i = "Ty" +:+ rest.
Proof. eexists. reflexivity. Qed.

Lemma enneagram_line_not_written_mbti ty ei sn tf jp p w i :
  spec_enneagram_line p w i ∉ written (mbti_section ty ei sn tf jp).
Proof.
  destruct (spec_enneagram_line_head p w i) as [rest ->].
  rewrite written_mbti. unfold shown_pole.
  rewrite !not_elem_of_cons. simpl.
  split_and!; try apply not_elem_of_nil; try discriminate;
    case_match; discriminate.
Qed.

Lemma mbti_type_length ei sn tf jp :
  ei ∈ ["E"; "I"] → sn ∈ ["S"; "I"] → tf ∈ ["T"; "F"] → jp ∈ ["J"; "P"] →
  String.length (ei +:+ sn +:+ tf +:+ jp) = 4%nat.
Proof.
  rewrite !elem_of_cons, !elem_of_nil.
  intros [->|[->|[]]] [->|[->|[]]] [->|[->|[]]] [->|[->|[]]]; reflexivity.
Qed.

Lemma analytics_page_empty s :
  personality_data s = ∅ →
  analytics_page s =
  Outcome (Ok tt) s
    [ElHeader "Personality Analytics";
     ElWarning
       "Please complete at least one personality assessment to view analytics."].
Proof.
  intros H. unfold analytics_page, st_header, st_warning.
  do 2 run_step.
  replace (dict_truthy (personality_data s)) with false
    by (rewrite H; symmetry; apply dict_truthy_empty).
  reflexivity.
Qed.

(** C7: on an empty store the Chat view and the Analytics view render their
    header and one warning, return, and do nothing else.  On a non-empty
    store that a session has reached, neither view warns; the Chat view,
    when Ask is pressed on a non-empty question, gives one answer, the fixed
    text "Based on your personality data, your past self might say: I would
    need to think about '...' carefully before responding." with the
    question as typed between the quotes, so every answer contains the
    question, and gives no answer otherwise; and the
    Analytics view shows, for each stored kind, the projection of the
    specification: the bar series of the five stored scores, the type string
    with the four indicators, and the Enneagram line. *)
Theorem gated_views u s :
  (personality_data s = ∅ →
   chat_page u s =
     Outcome (Ok tt) s
       [ElHeader "Chat with Your Past Self";
        ElWarning
          "Please complete at least one personality assessment before chatting."]
   ∧
   analytics_page s =
     Outcome (Ok tt) s
       [ElHeader "Personality Analytics";
        ElWarning
          "Please complete at least one personality assessment to view analytics."])
  ∧
  (reachable s → personality_data s ≠ ∅ →
   let chat := rendered (chat_page u s) in
   let out := rendered (analytics_page s) in
   result (chat_page u s) = Ok tt ∧ warnings chat = [] ∧
   responses chat =
     (if str_truthy (ui_query u) && ui_ask u
      then ["Based on your personality data, your past self might say: I would need to think about '"
            +:+ ui_query u +:+ "' carefully before responding."]
      else []) ∧
   (∀ r, r ∈ responses chat → is_substring (ui_query u) r) ∧
   result (analytics_page s) = Ok tt ∧ warnings out = [] ∧
   match personality_data s !! "big_five" with
   | Some r =>
       ∃ o c e a n, r = big_five_record o c e a n ∧
                    charts out = [spec_bar_series o c e a n]
   | None => charts out = []
   end ∧
   match personality_data s !! "mbti" with
   | Some r =>
       ∃ ty ei sn tf jp,
         r = mbti_record ty ei sn tf jp ∧ String.length ty = 4%nat ∧
         "Your type: " +:+ ty ∈ written out ∧
         progress_bars out = spec_mbti_indicators ei sn tf jp
   | None => progress_bars out = []
   end ∧
   match personality_data s !! "enneagram" with
   | Some r =>
       ∃ p w i, r = enneagram_record p w i ∧
                spec_enneagram_line p w i ∈ written out
   | None => ∀ p w i, spec_enneagram_line p w i ∉ written out
   end).
Proof.
  split.
  { intros H. split; [by apply chat_page_empty|by apply analytics_page_empty]. }
  intros Hs Hne. apply reachable_wf in Hs. cbv zeta.
  rewrite chat_page_nonempty by done. cbn [result rendered].
  split; [done|].
  split; [unfold chat_body; by destruct (str_truthy (ui_query u)), (ui_ask u)|].
  split; [unfold chat_body; by destruct (ui_query u), (ui_ask u)|].
  split.
  { intros r. unfold chat_body.
    destruct (ui_query u) as [|c q], (ui_ask u); simpl;
      try (by intros ?%elem_of_nil).
    intros ->%list_elem_of_singleton.
    exists ("Based on your personality data, your past self might say: "
            +:+ "I would need to think about '"),
      "' carefully before responding.".
    reflexivity. }
  destruct (analytics_page_stored s Hs Hne)
    as (l1 & l2 & l3 & -> & H1 & H2 & H3).
  cbn [result rendered].
  rewrite warnings_sections, charts_sections, progress_bars_sections,
    written_sections.
  destruct (personality_data s !! "big_five") as [r1|];
    [destruct H1 as (o & c & e & a & n & -> & ->)|subst l1].
  all: destruct (personality_data s !! "mbti") as [r2|];
    [destruct H2 as (x1 & x2 & x3 & x4 & Hei & Hsn & Htf & Hjp & -> & ->)
    |subst l2].
  all: destruct (personality_data s !! "enneagram") as [r3|];
    [destruct H3 as (p & w & i & _ & _ & _ & -> & ->)|subst l3].
  all: autorewrite with sections; cbn [app].
  all: split_and!; try done.
  all: try by eexists _, _, _, _, _.
  all: try (eexists _, _, _, _, _;
            split_and!;
              [done|by apply mbti_type_length|by apply list_elem_of_here|done]).
  all: try (eexists _, _, _; split; [done|];
            by repeat first [apply list_elem_of_here|apply list_elem_of_further]).
  all: intros p' w' i'; try apply not_elem_of_nil.
  all: rewrite <- (written_mbti (x1 +:+ x2 +:+ x3 +:+ x4));
       apply enneagram_line_not_written_mbti.
Qed.

(** Two records of Big Five scores are equal only if the scores are. *)
Lemma big_five_record_inj o c e a n o' c' e' a' n' :
  big_five_record o c e a n = big_five_record o' c' e' a' n' →
  o = o' ∧ c = c' ∧ e = e' ∧ a = a' ∧ n = n'.
Proof.
  intros H.
  pose proof (f_equal (.!! "openness") H) as Ho.
  pose proof (f_equal (.!! "conscientiousness") H) as Hc.
  pose proof (f_equal (.!! "extraversion") H) as He.
  pose proof (f_equal (.!! "agreeableness") H) as Ha.
  pose proof (f_equal (.!! "neuroticism") H) as Hn.
  change (Some (PyInt o) = Some (PyInt o')) in Ho.
  change (Some (PyInt c) = Some (PyInt c')) in Hc.
  change (Some (PyInt e) = Some (PyInt e')) in He.
  change (Some (PyInt a) = Some (PyInt a')) in Ha.
  change (Some (PyInt n) = Some (PyInt n')) in Hn.
  by simplify_eq.
Defined.

(** The views at a fresh session, and after the Big Five
    submission 80, 40, 60, 70, 30: the chat answer with the question
    "What should I do?" inside it, and the bar series in
    the order Openness, Conscientiousness, Extraversion, Agreeableness,
    Neuroticism. *)
Lemma gated_views_witness :
  (chat_page asking_ui fresh_session =
     Outcome (Ok tt) fresh_session
       [ElHeader "Chat with Your Past Self";
        ElWarning
          "Please complete at least one personality assessment before chatting."]
   ∧
   analytics_page fresh_session =
     Outcome (Ok tt) fresh_session
       [ElHeader "Personality Analytics";
        ElWarning
          "Please complete at least one personality assessment to view analytics."])
  ∧
  (responses (rendered (chat_page asking_ui (run_session [big_five_ui]))) =
     ["Based on your personality data, your past self might say: I would need to think about 'What should I do?' carefully before responding."]
   ∧
   is_substring "What should I do?"
     "Based on your personality data, your past self might say: I would need to think about 'What should I do?' carefully before responding."
   ∧
   result (analytics_page (run_session [big_five_ui])) = Ok tt ∧
   warnings (rendered (analytics_page (run_session [big_five_ui]))) = [] ∧
   charts (rendered (analytics_page (run_session [big_five_ui]))) =
     [[("Openness", PyInt 80); ("Conscientiousness", PyInt 40);
       ("Extraversion", PyInt 60); ("Agreeableness", PyInt 70);
       ("Neuroticism", PyInt 30)]]).
Proof.
  split.
  - apply (proj1 (gated_views asking_ui fresh_session)). reflexivity.
  - destruct (proj2 (gated_views asking_ui (run_session [big_five_ui]))
                (ex_intro _ [big_five_ui] eq_refl)
                run_session_big_five_nonempty)
      as (_ & _ & Hr & Hsub & Ha & Hw & Hbf & _).
    change (personality_data (run_session [big_five_ui]) !! "big_five")
      with (Some (big_five_record 80 40 60 70 30)) in Hbf.
    destruct Hbf as (o & c & e & a & n & Heq & Hch).
    apply big_five_record_inj in Heq as (<- & <- & <- & <- & <-).
    refine (conj Hr (conj _ (conj Ha (conj Hw Hch)))).
    apply Hsub. rewrite Hr. apply list_elem_of_here.
Defined.

(** * Further properties of the script *)

(** ** Runs that never read the state *)

Lemma with_personality_data_id s :
  with_personality_data (apply_writes []) s = s.
Proof. by destruct s. Qed.

Lemma with_personality_data_app w1 w2 s :
  with_personality_data (apply_writes w2)
    (with_personality_data (apply_writes w1) s) =
  with_personality_data (apply_writes (w1 ++ w2)) s.
Proof.
  unfold with_personality_data, apply_writes. simpl. by rewrite foldl_app.
Qed.

Lemma apply_writes_union w d :
  apply_writes w d = list_to_map (reverse w) ∪ d.
Proof.
  unfold apply_writes. induction w as [|[k v] w IH] using rev_ind; simpl.
  - by rewrite (left_id_L ∅ (∪)).
  - rewrite foldl_snoc, IH, reverse_snoc. simpl.
    by rewrite insert_union_l.
Qed.

Lemma apply_writes_idemp w d :
  apply_writes w (apply_writes w d) = apply_writes w d.
Proof.
  rewrite !apply_writes_union.
  by rewrite (assoc_L (∪)), (idemp_L (∪)).
Qed.

Lemma apply_writes_frame (K : list string) w d k :
  Forall (λ kv, kv.1 ∈ K) w → k ∉ K → apply_writes w d !! k = d !! k.
Proof.
  unfold apply_writes. induction w as [|[k' v] w IH] using rev_ind;
    intros Hw Hk; [done|].
  apply Forall_app in Hw as [Hw Hkv].
  rewrite Forall_singleton in Hkv. simpl in Hkv.
  rewrite foldl_snoc. simpl. rewrite lookup_insert_ne; [by apply IH|].
  intros ->. by apply Hk.
Qed.

Section writes_rules.
Context (K : list string).

Lemma writes_ret {A} (a : A) : writes_within K (mret a).
Proof.
  exists (Ok a), [], []. split; [done|].
  intros s. by rewrite with_personality_data_id.
Qed.

Lemma writes_raise {A} e : writes_within K (raise e : M A).
Proof.
  exists (Raise e), [], []. split; [done|].
  intros s. by rewrite with_personality_data_id.
Qed.

Lemma writes_emit e : writes_within K (emit e).
Proof.
  exists (Ok tt), [e], []. split; [done|].
  intros s. by rewrite with_personality_data_id.
Qed.

Lemma writes_bind {A B} (m : M A) (f : A → M B) :
  writes_within K m → (∀ a, writes_within K (f a)) →
  writes_within K (m ≫= f).
Proof.
  intros (r & l & w & Hw & Hm) Hf. destruct r as [a|e].
  - destruct (Hf a) as (r' & l' & w' & Hw' & Hfa).
    exists r', (l ++ l'), (w ++ w'). split; [by apply Forall_app|].
    intros s. unfold mbind, M_bind. rewrite Hm. simpl. rewrite Hfa. simpl.
    by rewrite with_personality_data_app.
  - exists (Raise e), l, w. split; [done|].
    intros s. unfold mbind, M_bind. by rewrite Hm.
Qed.

Lemma writes_within_container {A} c (m : M A) :
  writes_within K m → writes_within K (within c m).
Proof.
  intros (r & l & w & Hw & Hm). exists r, (c <$> l), w. split; [done|].
  intros s. unfold within. by rewrite Hm.
Qed.

Lemma writes_set_personality_data_item k r :
  k ∈ K → writes_within K (set_personality_data_item k r).
Proof.
  intros Hk. exists (Ok tt), [], [(k, r)]. split; [|done].
  by apply Forall_singleton.
Qed.

Lemma writes_str_head s : writes_within K (str_head s).
Proof. destruct s; [apply writes_raise|apply writes_ret]. Qed.

Lemma writes_st_slider label lo hi dflt v :
  writes_within K (st_slider label lo hi dflt v).
Proof.
  apply writes_bind; [apply writes_emit|intros _; apply writes_ret].
Qed.

Lemma writes_st_radio label options i :
  writes_within K (st_radio label options i).
Proof.
  apply writes_bind; [apply writes_emit|intros _].
  destruct (options !! i); [apply writes_ret|apply writes_raise].
Qed.

Lemma writes_st_selectbox {A} `{ToPy A} label (options : list A) i :
  writes_within K (st_selectbox label options i).
Proof.
  apply writes_bind; [apply writes_emit|intros _].
  destruct (options !! i); [apply writes_ret|apply writes_raise].
Qed.

Lemma writes_st_button label b : writes_within K (st_button label b).
Proof.
  apply writes_bind; [apply writes_emit|intros _; apply writes_ret].
Qed.
End writes_rules.

(** Discharges [writes_within K m] for a form. *)
Ltac writes_form :=
  repeat first
    [ apply writes_emit
    | apply writes_ret
    | apply writes_str_head
    | apply writes_st_slider
    | apply writes_st_radio
    | apply writes_st_selectbox
    | apply writes_st_button
    | apply writes_set_personality_data_item; apply list_elem_of_here
    | match goal with
      | |- writes_within _ (if ?b then _ else _) => destruct b
      end
    | apply writes_bind; [|intros ?] ].

Lemma big_five_assessment_writes u :
  writes_within ["big_five"] (big_five_assessment u).
Proof.
  unfold big_five_assessment, st_subheader, st_markdown, st_success.
  writes_form.
Qed.

Lemma mbti_assessment_writes u :
  writes_within ["mbti"] (mbti_assessment u).
Proof.
  unfold mbti_assessment, st_subheader, st_markdown, st_write, st_success.
  writes_form.
Qed.

Lemma enneagram_assessment_writes u :
  writes_within ["enneagram"] (enneagram_assessment u).
Proof.
  unfold enneagram_assessment, st_subheader, st_markdown, st_success.
  writes_form.
Qed.

(** What follows from [writes_within]. *)
Section writes_consequences.
Context {A : Type} (K : list string) (m : M A).
Hypothesis Hm : writes_within K m.

Lemma writes_within_same_output s1 s2 :
  result (m s1) = result (m s2) ∧ rendered (m s1) = rendered (m s2).
Proof. destruct Hm as (r & l & w & _ & H). by rewrite !H. Qed.

Lemma writes_within_frame s :
  (∀ k, k ∉ K →
        personality_data (final (m s)) !! k = personality_data s !! k) ∧
  initialized (final (m s)) = initialized s ∧
  vector_store (final (m s)) = vector_store s.
Proof.
  destruct Hm as (r & l & w & Hw & H). rewrite H. simpl.
  split; [|done]. intros k Hk. by eapply apply_writes_frame.
Qed.

Lemma writes_within_idemp s : final (m (final (m s))) = final (m s).
Proof.
  destruct Hm as (r & l & w & Hw & H). rewrite !H. simpl.
  unfold with_personality_data. simpl. by rewrite apply_writes_idemp.
Qed.
End writes_consequences.

(** ** The script as initialisation followed by a page *)

Lemma run_within_ret {A B} c (a : A) (g : A → M B) s :
  (within c (mret a) ≫= g) s = g a s.
Proof. unfold mbind, M_bind, within. simpl. by destruct (g a s). Qed.

Lemma run_bind_get_initialized {B} (h : bool → M B) s :
  (get_initialized ≫= h) s = h (initialized s) s.
Proof. unfold mbind, M_bind. simpl. by destruct (h _ s). Qed.

Lemma run_bind_getitem_None {B V} (d : gmap string V) k (h : V → M B) s :
  d !! k = None → (getitem d k ≫= h) s = Outcome (Raise (KeyError k)) s [].
Proof. intros H. unfold getitem. by rewrite H. Qed.

Lemma run_bind_st_selectbox {A B} `{ToPy A} label (options : list A) i o
    (h : A → M B) s :
  options !! i = Some o →
  (st_selectbox label options i ≫= h) s =
  prepend [ElSelectbox label (to_py <$> options)] (h o s).
Proof.
  intros Hi. unfold st_selectbox. rewrite run_bind_assoc, run_bind_emit.
  by rewrite Hi, run_bind_ret.
Qed.

Lemma run_bind_st_button {B} label b (h : bool → M B) s :
  (st_button label b ≫= h) s = prepend [ElButton label] (h b s).
Proof.
  unfold st_button. by rewrite run_bind_assoc, run_bind_emit, run_bind_ret.
Qed.

Lemma personality_data_init_session s :
  personality_data (init_session s) = personality_data s.
Proof. unfold init_session. by destruct (initialized s). Qed.

(** With the page radio in range, [main] renders its title and sidebar,
    initialises the session if need be, and runs the chosen page. *)
Lemma main_run u s p :
  page_options !! ui_page u = Some p →
  main u s = prepend main_chrome (route p u (init_session s)).
Proof.
  intros Hp. unfold main, st_title, st_sidebar, st_radio, st_spinner.
  rewrite run_bind_emit, run_within_emit, run_within_bind_emit.
  cbv beta. rewrite Hp, run_within_ret, run_bind_get_initialized.
  unfold init_session. destruct (initialized s) eqn:Hi; cbn [negb].
  - rewrite run_bind_ret. reflexivity.
  - unfold mbind at 1. unfold M_bind, within, initialize_vector_db,
      set_vector_store, set_initialized.
    simpl. unfold route, main_chrome, prepend. simpl.
    by match goal with |- context [result ?o] => destruct o end.
Qed.

(** With the page radio out of range the run stops in the sidebar. *)
Lemma main_run_out_of_range u s :
  page_options !! ui_page u = None →
  main u s = Outcome (Raise IndexError) s main_chrome.
Proof.
  intros Hp. unfold main, st_title, st_sidebar, st_radio.
  rewrite run_bind_emit, run_within_emit.
  unfold mbind, M_bind, within, emit. simpl. by rewrite Hp.
Qed.

Lemma page_options_lookup u p :
  page_options !! ui_page u = Some p →
  (ui_page u = 0%nat ∧ p = "Home") ∨
  (ui_page u = 1%nat ∧ p = "Personality Assessment") ∨
  (ui_page u = 2%nat ∧ p = "Chat with Past Self") ∨
  (ui_page u = 3%nat ∧ p = "Analytics").
Proof.
  destruct (ui_page u) as [|[|[|[|?]]]]; intros [= <-]; auto 10.
Qed.

(** ** Invariants of any run *)

Lemma keeps_of_final {A} I (m : M A) :
  (∀ s, I s → I (final (m s))) → keeps I m (λ _, True).
Proof. intros H s Hs. split; [by apply H|done]. Qed.

Lemma writes_within_keeps_off {A} I K (m : M A) :
  off_profile I → writes_within K m → keeps I m (λ _, True).
Proof.
  intros HI (r & l & w & _ & Hm). apply keeps_of_final.
  intros s Hs. rewrite Hm. simpl. by apply HI.
Qed.

Section route_keeps.
Context (I : session_state → Prop) (u : ui).
Hypothesis Hbf : keeps I (big_five_assessment u) (λ _, True).
Hypothesis Hmb : keeps I (mbti_assessment u) (λ _, True).
Hypothesis Hen : keeps I (enneagram_assessment u) (λ _, True).

Lemma assessment_page_keeps_forms : keeps I (assessment_page u) (λ _, True).
Proof.
  unfold assessment_page, st_header.
  keeps_let _ _. keeps_let ty _.
  repeat case_bool_decide; auto.
  by apply keeps_ret.
Qed.

Lemma route_keeps_forms p : keeps I (route p u) (λ _, True).
Proof.
  unfold route.
  repeat case_bool_decide;
    auto using home_page_keeps, assessment_page_keeps_forms, chat_page_keeps,
      analytics_page_keeps.
  by apply keeps_ret.
Qed.

Lemma main_final_keeps s :
  (∀ s', I s' → I (init_session s')) → I s → I (final (main u s)).
Proof.
  intros Hinit Hs. destruct (page_options !! ui_page u) as [p|] eqn:Hp.
  - rewrite (main_run _ _ _ Hp). simpl.
    by apply (route_keeps_forms p), Hinit.
  - by rewrite (main_run_out_of_range _ _ Hp).
Qed.
End route_keeps.

(** ** The forms and the session state *)

(** X2: no form reads the session state: what a form returns and renders
    is the same in any two states. *)
Theorem forms_ignore_session_state u s1 s2 :
  (result (big_five_assessment u s1) = result (big_five_assessment u s2) ∧
   rendered (big_five_assessment u s1) = rendered (big_five_assessment u s2)) ∧
  (result (mbti_assessment u s1) = result (mbti_assessment u s2) ∧
   rendered (mbti_assessment u s1) = rendered (mbti_assessment u s2)) ∧
  (result (enneagram_assessment u s1) = result (enneagram_assessment u s2) ∧
   rendered (enneagram_assessment u s1) =
     rendered (enneagram_assessment u s2)).
Proof.
  split; [|split].
  - exact (writes_within_same_output _ _ (big_five_assessment_writes u) s1 s2).
  - exact (writes_within_same_output _ _ (mbti_assessment_writes u) s1 s2).
  - exact (writes_within_same_output _ _ (enneagram_assessment_writes u)
             s1 s2).
Qed.

(** X3: a form touches nothing but its own entry: every other key of
    [personality_data] holds what it held, and [initialized] and
    [vector_store] are as they were, whatever the input and whether or not
    the form saves. *)
Theorem forms_write_own_key_only u s :
  ((∀ k, k ≠ "big_five" →
      personality_data (final (big_five_assessment u s)) !! k =
      personality_data s !! k) ∧
   initialized (final (big_five_assessment u s)) = initialized s ∧
   vector_store (final (big_five_assessment u s)) = vector_store s) ∧
  ((∀ k, k ≠ "mbti" →
      personality_data (final (mbti_assessment u s)) !! k =
      personality_data s !! k) ∧
   initialized (final (mbti_assessment u s)) = initialized s ∧
   vector_store (final (mbti_assessment u s)) = vector_store s) ∧
  ((∀ k, k ≠ "enneagram" →
      personality_data (final (enneagram_assessment u s)) !! k =
      personality_data s !! k) ∧
   initialized (final (enneagram_assessment u s)) = initialized s ∧
   vector_store (final (enneagram_assessment u s)) = vector_store s).
Proof.
  split; [|split].
  - destruct (writes_within_frame _ _ (big_five_assessment_writes u) s)
      as (Hk & Hi & Hv).
    split; [|done]. intros k Hne. apply Hk. by rewrite list_elem_of_singleton.
  - destruct (writes_within_frame _ _ (mbti_assessment_writes u) s)
      as (Hk & Hi & Hv).
    split; [|done]. intros k Hne. apply Hk. by rewrite list_elem_of_singleton.
  - destruct (writes_within_frame _ _ (enneagram_assessment_writes u) s)
      as (Hk & Hi & Hv).
    split; [|done]. intros k Hne. apply Hk. by rewrite list_elem_of_singleton.
Qed.

(** After the MBTI form is saved, the Big Five entry saved before is still
    there. *)
Lemma forms_write_own_key_only_witness :
  personality_data
    (final (mbti_assessment infj_ui (run_session [big_five_ui])))
    !! "big_five" =
  Some (big_five_record 80 40 60 70 30).
Proof.
  rewrite (proj1 (proj1 (proj2 (forms_write_own_key_only infj_ui
                                  (run_session [big_five_ui])))));
    [reflexivity|discriminate].
Defined.

(** X4: submitting a form twice with the same input leaves the state that
    submitting it once leaves. *)
Theorem form_resubmission_idempotent u s :
  final (big_five_assessment u (final (big_five_assessment u s))) =
    final (big_five_assessment u s) ∧
  final (mbti_assessment u (final (mbti_assessment u s))) =
    final (mbti_assessment u s) ∧
  final (enneagram_assessment u (final (enneagram_assessment u s))) =
    final (enneagram_assessment u s).
Proof.
  split; [|split].
  - exact (writes_within_idemp _ _ (big_five_assessment_writes u) s).
  - exact (writes_within_idemp _ _ (mbti_assessment_writes u) s).
  - exact (writes_within_idemp _ _ (enneagram_assessment_writes u) s).
Qed.

(** ** Saving is the only way to change the profile *)

Lemma big_five_assessment_unsaved I u :
  ui_save_big_five u = false → keeps I (big_five_assessment u) (λ _, True).
Proof.
  intros Hu. unfold big_five_assessment, st_subheader, st_markdown.
  keeps_let _ _. keeps_let _ _.
  keeps_let o _. keeps_let c _. keeps_let e _. keeps_let a _. keeps_let n _.
  keeps_let pressed Hp. subst pressed. rewrite Hu. by apply keeps_ret.
Qed.

Lemma mbti_assessment_unsaved I u :
  ui_save_mbti u = false → keeps I (mbti_assessment u) (λ _, True).
Proof.
  intros Hu. unfold mbti_assessment, st_subheader, st_markdown, st_write.
  do 11 keeps_let ? ?.
  keeps_let pressed Hp. subst pressed. rewrite Hu. by apply keeps_ret.
Qed.

Lemma enneagram_assessment_unsaved I u :
  ui_save_enneagram u = false → keeps I (enneagram_assessment u) (λ _, True).
Proof.
  intros Hu. unfold enneagram_assessment, st_subheader, st_markdown.
  do 5 keeps_let ? ?.
  keeps_let pressed Hp. subst pressed. rewrite Hu. by apply keeps_ret.
Qed.

(** X5: a run of the script changes [personality_data] only on the
    assessment page and only when a Save button is pressed: on any other
    page, or with no Save pressed, the profile is left as it was. *)
Theorem profile_changes_only_on_save u s :
  ui_page u ≠ 1%nat ∨
  (ui_save_big_five u = false ∧ ui_save_mbti u = false ∧
   ui_save_enneagram u = false) →
  personality_data (final (main u s)) = personality_data s.
Proof.
  intros H.
  set (I := λ s', personality_data s' = personality_data s).
  assert (∀ s', I s' → I (init_session s')) as Hinit.
  { intros s' Hs'. unfold I. by rewrite personality_data_init_session. }
  destruct H as [Hpage|(Hbf & Hmb & Hen)].
  - destruct (page_options !! ui_page u) as [p|] eqn:Hp;
      [|by rewrite (main_run_out_of_range _ _ Hp)].
    rewrite (main_run _ _ _ Hp). simpl.
    destruct (page_options_lookup _ _ Hp)
      as [[_ ->]|[[? _]|[[_ ->]|[_ ->]]]]; [|done|..].
    + by apply (home_page_keeps I), Hinit.
    + by apply (chat_page_keeps I), Hinit.
    + by apply (analytics_page_keeps I), Hinit.
  - apply (main_final_keeps I); [| | |done..].
    + by apply big_five_assessment_unsaved.
    + by apply mbti_assessment_unsaved.
    + by apply enneagram_assessment_unsaved.
Qed.

(** Opening the Analytics page with a Save flag set, and the assessment page
    with no Save pressed, after one Big Five submission. *)
Lemma profile_changes_only_on_save_witness :
  personality_data (final (main analytics_ui (run_session [big_five_ui]))) =
    personality_data (run_session [big_five_ui]) ∧
  personality_data (final (main browsing_ui (run_session [big_five_ui]))) =
    personality_data (run_session [big_five_ui]).
Proof.
  split.
  - apply (profile_changes_only_on_save analytics_ui). left. discriminate.
  - apply (profile_changes_only_on_save browsing_ui). right.
    repeat split; reflexivity.
Defined.

(** ** The vector store handle *)

(** X6: a run with the page radio in range leaves the session initialised;
    it builds the handle (collection "ego_personality", model
    "all-MiniLM-L6-v2", directory "./chroma_db") when the session was not
    initialised, and leaves [vector_store] alone when it was. *)
Theorem vector_store_built_once u s :
  (ui_page u < 4)%nat →
  initialized (final (main u s)) = true ∧
  (initialized s = false →
   vector_store (final (main u s)) =
     Some (Chroma "ego_personality" "all-MiniLM-L6-v2" "./chroma_db")) ∧
  (initialized s = true →
   vector_store (final (main u s)) = vector_store s).
Proof.
  intros Hu.
  destruct (page_options !! ui_page u) as [p|] eqn:Hp.
  2: { apply lookup_ge_None in Hp. simpl in Hp. lia. }
  rewrite (main_run _ _ _ Hp). simpl.
  set (s0 := init_session s).
  set (I := λ s', initialized s' = initialized s0 ∧
                  vector_store s' = vector_store s0).
  assert (off_profile I) as HI by (by intros f s').
  assert (I (final (route p u s0))) as [Hi Hv].
  { apply (route_keeps_forms I u); [..|done].
    - eapply writes_within_keeps_off; [done|apply big_five_assessment_writes].
    - eapply writes_within_keeps_off; [done|apply mbti_assessment_writes].
    - eapply writes_within_keeps_off;
        [done|apply enneagram_assessment_writes]. }
  rewrite Hi, Hv. unfold s0, init_session.
  destruct (initialized s) eqn:E; simpl; split_and!; (done || congruence).
Qed.

(** The first run of a session, on the Home page. *)
Lemma vector_store_built_once_witness :
  initialized (final (main home_ui fresh_session)) = true ∧
  (initialized fresh_session = false →
   vector_store (final (main home_ui fresh_session)) =
     Some (Chroma "ego_personality" "all-MiniLM-L6-v2" "./chroma_db")) ∧
  (initialized fresh_session = true →
   vector_store (final (main home_ui fresh_session)) =
     vector_store fresh_session).
Proof.
  apply (vector_store_built_once home_ui fresh_session). simpl. lia.
Defined.

(** ** The script does not raise *)

Lemma big_five_assessment_result u s :
  result (big_five_assessment u s) = Ok tt.
Proof. destruct u as [? ? ? ? ? ? ? []]; reflexivity. Qed.

Lemma mbti_assessment_result u s :
  (ui_ei u < 2)%nat → (ui_sn u < 2)%nat → (ui_tf u < 2)%nat →
  (ui_jp u < 2)%nat →
  result (mbti_assessment u s) = Ok tt.
Proof.
  destruct u as [? ? ? ? ? ? ? ? i1 i2 i3 i4 save ? ? ? ? ? ?]. simpl.
  intros H1 H2 H3 H4.
  destruct i1 as [|[|?]]; [| |lia];
  (destruct i2 as [|[|?]]; [| |lia]);
  (destruct i3 as [|[|?]]; [| |lia]);
  (destruct i4 as [|[|?]]; [| |lia]);
  destruct save; reflexivity.
Qed.

Lemma enneagram_assessment_result u s :
  (ui_primary_type u < 9)%nat →
  (ui_wing u < length (wing_options (1 + Z.of_nat (ui_primary_type u))))%nat →
  (ui_instinct u < 3)%nat →
  result (enneagram_assessment u s) = Ok tt.
Proof.
  destruct u as [? ? ? ? ? ? ? ? ? ? ? ? ? ip iw ii save ? ?]. simpl.
  intros Hp Hw Hi.
  repeat (destruct ip as [|ip]; [|try lia]).
  all: destruct iw as [|[|?]];
    try (exfalso; vm_compute in Hw; lia).
  all: destruct ii as [|[|[|?]]]; [| | |lia].
  all: destruct save; reflexivity.
Qed.

Lemma assessment_page_result u s :
  valid_ui u → result (assessment_page u s) = Ok tt.
Proof.
  intros (_ & Ht & ? & ? & ? & ? & ? & ? & ?).
  unfold assessment_page, st_header. rewrite run_bind_emit.
  destruct (ui_assessment_type u) as [|[|[|?]]] eqn:Et; [| | |lia].
  all: erewrite run_bind_st_selectbox by reflexivity.
  all: cbn [prepend result]; simpl bool_decide; cbv iota.
  - apply big_five_assessment_result.
  - by apply mbti_assessment_result.
  - by apply enneagram_assessment_result.
Qed.

Lemma chat_page_result u s : result (chat_page u s) = Ok tt.
Proof.
  destruct (decide (personality_data s = ∅)) as [H|H].
  - by rewrite chat_page_empty.
  - by rewrite chat_page_nonempty.
Qed.

Lemma analytics_page_result s :
  wf_session s → result (analytics_page s) = Ok tt.
Proof.
  intros Hwf. destruct (decide (personality_data s = ∅)) as [H|H].
  - by rewrite analytics_page_empty.
  - destruct (analytics_page_stored s Hwf H) as (l1 & l2 & l3 & -> & _).
    done.
Qed.

(** X7: in any state a session can reach, a run whose chosen positions lie
    in the option lists returns normally, on every page: no lookup in the
    stored results fails. *)
Theorem main_never_raises u s :
  valid_ui u → reachable s → result (main u s) = Ok tt.
Proof.
  intros Hu Hs. pose proof Hu as (Hpage & _).
  destruct (page_options !! ui_page u) as [p|] eqn:Hp.
  2: { apply lookup_ge_None in Hp. simpl in Hp. lia. }
  rewrite (main_run _ _ _ Hp). cbn [prepend result].
  destruct (page_options_lookup _ _ Hp)
    as [[_ ->]|[[_ ->]|[[_ ->]|[_ ->]]]]; unfold route; simpl bool_decide;
    cbv iota.
  - reflexivity.
  - by apply assessment_page_result.
  - apply chat_page_result.
  - apply analytics_page_result. apply reachable_wf in Hs.
    unfold wf_session. by rewrite personality_data_init_session.
Qed.

(** The Analytics page after all three forms have been saved. *)
Lemma main_never_raises_witness :
  result (main analytics_ui
            (run_session [big_five_ui; infj_ui; enneagram_ui])) = Ok tt.
Proof.
  apply (main_never_raises analytics_ui).
  - repeat split; simpl; lia.
  - by exists [big_five_ui; infj_ui; enneagram_ui].
Defined.

(** ** Invariants of a session *)

(** X8: the store of a session never holds a key other than the three
    kinds, so it never holds more than three results. *)
Theorem session_store_keys s :
  reachable s →
  dom (personality_data s) ⊆ ({["big_five"; "mbti"; "enneagram"]} : gset string)
  ∧ (size (personality_data s) ≤ 3)%nat.
Proof.
  intros Hs. apply reachable_wf in Hs.
  assert (dom (personality_data s)
          ⊆ ({["big_five"; "mbti"; "enneagram"]} : gset string)) as Hdom.
  { intros k [r Hr]%elem_of_dom.
    destruct (Hs k r Hr) as [[-> _]|[[-> _]|[-> _]]];
      rewrite !elem_of_union, !elem_of_singleton; auto. }
  split; [done|].
  rewrite <- size_dom. apply subseteq_size in Hdom.
  etrans; [exact Hdom|]. by vm_compute.
Qed.

(** The session in which all three forms have been saved. *)
Lemma session_store_keys_witness :
  dom (personality_data (run_session [big_five_ui; infj_ui; enneagram_ui]))
    ⊆ ({["big_five"; "mbti"; "enneagram"]} : gset string)
  ∧ (size (personality_data
             (run_session [big_five_ui; infj_ui; enneagram_ui])) ≤ 3)%nat.
Proof.
  apply session_store_keys. by exists [big_five_ui; infj_ui; enneagram_ui].
Defined.

Lemma big_five_assessment_final u s :
  final (big_five_assessment u s) =
  if ui_save_big_five u then
    with_personality_data
      (<["big_five" :=
          big_five_record (ui_openness u) (ui_conscientiousness u)
            (ui_extraversion u) (ui_agreeableness u) (ui_neuroticism u)]>) s
  else s.
Proof. destruct u as [? ? ? ? ? ? ? []]; reflexivity. Qed.

Lemma big_five_in_bounds_frame {A} (m : M A) K :
  writes_within K m → "big_five" ∉ K →
  keeps big_five_in_bounds m (λ _, True).
Proof.
  intros Hm HK. apply keeps_of_final. intros s Hs r.
  rewrite (proj1 (writes_within_frame _ _ Hm s)) by done. apply Hs.
Qed.

Lemma main_keeps_big_five_in_bounds u s :
  sliders_in_bounds u →
  big_five_in_bounds s → big_five_in_bounds (final (main u s)).
Proof.
  intros (Ho & Hc & He & Ha & Hn) Hs.
  apply (main_final_keeps big_five_in_bounds); [| | | |done].
  - apply keeps_of_final. intros s' Hs'. rewrite big_five_assessment_final.
    destruct (ui_save_big_five u); [|done].
    intros r. simpl. rewrite lookup_insert_eq. intros [= <-]. eauto 15.
  - eapply big_five_in_bounds_frame; [apply mbti_assessment_writes|].
    rewrite list_elem_of_singleton. discriminate.
  - eapply big_five_in_bounds_frame; [apply enneagram_assessment_writes|].
    rewrite list_elem_of_singleton. discriminate.
  - intros s' Hs' r. rewrite personality_data_init_session. apply Hs'.
Qed.

(** X9: in a session whose slider values all lie in the sliders' bounds
    1..100, the stored Big Five scores, if any, lie in 1..100. *)
Theorem big_five_scores_stay_in_bounds us :
  Forall sliders_in_bounds us → big_five_in_bounds (run_session us).
Proof.
  unfold run_session.
  assert (big_five_in_bounds fresh_session) as H0
    by (intros r; simpl; by rewrite lookup_empty).
  revert H0. generalize fresh_session.
  induction us as [|u us IH]; intros s Hs Hus; simpl; [done|].
  apply Forall_cons in Hus as [Hu Hus].
  apply IH; [|done]. by apply main_keeps_big_five_in_bounds.
Qed.

(** Two Big Five submissions and an MBTI submission. *)
Lemma big_five_scores_stay_in_bounds_witness :
  big_five_in_bounds (run_session [earlier_big_five_ui; big_five_ui; infj_ui]).
Proof.
  apply big_five_scores_stay_in_bounds.
  repeat constructor; simpl; lia.
Defined.

(** ** From a saved form to the Analytics view *)

Lemma mbti_record_inj ty ei sn tf jp ty' ei' sn' tf' jp' :
  mbti_record ty ei sn tf jp = mbti_record ty' ei' sn' tf' jp' →
  ty = ty' ∧ ei = ei' ∧ sn = sn' ∧ tf = tf' ∧ jp = jp'.
Proof.
  intros H.
  pose proof (f_equal (.!! "type") H) as Hty.
  pose proof (f_equal (.!! "ei") H) as Hei.
  pose proof (f_equal (.!! "sn") H) as Hsn.
  pose proof (f_equal (.!! "tf") H) as Htf.
  pose proof (f_equal (.!! "jp") H) as Hjp.
  change (Some (PyStr ty) = Some (PyStr ty')) in Hty.
  change (Some (PyStr ei) = Some (PyStr ei')) in Hei.
  change (Some (PyStr sn) = Some (PyStr sn')) in Hsn.
  change (Some (PyStr tf) = Some (PyStr tf')) in Htf.
  change (Some (PyStr jp) = Some (PyStr jp')) in Hjp.
  by simplify_eq.
Qed.

Lemma enneagram_record_inj p w i p' w' i' :
  enneagram_record p w i = enneagram_record p' w' i' →
  p = p' ∧ w = w' ∧ i = i'.
Proof.
  intros H.
  pose proof (f_equal (.!! "primary_type") H) as Hp.
  pose proof (f_equal (.!! "wing") H) as Hw.
  pose proof (f_equal (.!! "instinct") H) as Hi.
  change (Some (PyInt p) = Some (PyInt p')) in Hp.
  change (Some (PyInt w) = Some (PyInt w')) in Hw.
  change (Some (PyStr i) = Some (PyStr i')) in Hi.
  by simplify_eq.
Qed.

Lemma lookup_nonempty {V} (d : gmap string V) k v : d !! k = Some v → d ≠ ∅.
Proof. intros H ->. by rewrite lookup_empty in H. Qed.

(** X10: after a Big Five submission in any state a session can reach, the
    Analytics view returns normally and its one bar chart shows the five
    submitted scores, in the order Openness, Conscientiousness,
    Extraversion, Agreeableness, Neuroticism. *)
Theorem big_five_round_trip u s :
  reachable s → ui_save_big_five u = true →
  let s' := final (big_five_assessment u s) in
  result (analytics_page s') = Ok tt ∧
  charts (rendered (analytics_page s')) =
    [[("Openness", PyInt (ui_openness u));
      ("Conscientiousness", PyInt (ui_conscientiousness u));
      ("Extraversion", PyInt (ui_extraversion u));
      ("Agreeableness", PyInt (ui_agreeableness u));
      ("Neuroticism", PyInt (ui_neuroticism u))]].
Proof.
  intros Hs Hsave s'. apply reachable_wf in Hs.
  assert (wf_session s') as Hwf by (by apply (big_five_assessment_keeps u s)).
  assert (personality_data s' !! "big_five" =
          Some (big_five_record (ui_openness u) (ui_conscientiousness u)
                  (ui_extraversion u) (ui_agreeableness u)
                  (ui_neuroticism u))) as Hbf.
  { unfold s'. rewrite big_five_assessment_final, Hsave. simpl.
    apply lookup_insert_eq. }
  destruct (analytics_page_stored s' Hwf (lookup_nonempty _ _ _ Hbf))
    as (l1 & l2 & l3 & -> & H1 & H2 & H3).
  split; [done|]. cbn [rendered]. rewrite charts_sections.
  rewrite Hbf in H1. destruct H1 as (o & c & e & a & n & Hrec & ->).
  apply big_five_record_inj in Hrec as (-> & -> & -> & -> & ->).
  destruct (personality_data s' !! "mbti");
    [destruct H2 as (? & ? & ? & ? & _ & _ & _ & _ & _ & ->)|subst l2].
  all: destruct (personality_data s' !! "enneagram");
    [destruct H3 as (? & ? & ? & _ & _ & _ & _ & ->)|subst l3].
  all: by autorewrite with sections.
Qed.

(** The submission 80, 40, 60, 70, 30 after an MBTI submission. *)
Lemma big_five_round_trip_witness :
  let s' := final (big_five_assessment big_five_ui (run_session [infj_ui])) in
  result (analytics_page s') = Ok tt ∧
  charts (rendered (analytics_page s')) =
    [[("Openness", PyInt 80); ("Conscientiousness", PyInt 40);
      ("Extraversion", PyInt 60); ("Agreeableness", PyInt 70);
      ("Neuroticism", PyInt 30)]].
Proof.
  apply (big_five_round_trip big_five_ui (run_session [infj_ui])).
  - by exists [infj_ui].
  - reflexivity.
Defined.

Lemma mbti_assessment_stored u s :
  (ui_ei u < 2)%nat → (ui_sn u < 2)%nat → (ui_tf u < 2)%nat →
  (ui_jp u < 2)%nat → ui_save_mbti u = true →
  personality_data (final (mbti_assessment u s)) !! "mbti" =
  Some (mbti_record
          (pole_at (ui_ei u) "E" "I" +:+ pole_at (ui_sn u) "S" "I" +:+
           pole_at (ui_tf u) "T" "F" +:+ pole_at (ui_jp u) "J" "P")
          (pole_at (ui_ei u) "E" "I") (pole_at (ui_sn u) "S" "I")
          (pole_at (ui_tf u) "T" "F") (pole_at (ui_jp u) "J" "P")).
Proof.
  destruct u as [? ? ? ? ? ? ? ? i1 i2 i3 i4 save ? ? ? ? ? ?]. simpl.
  intros H1 H2 H3 H4 ->.
  destruct i1 as [|[|?]]; [| |lia];
  (destruct i2 as [|[|?]]; [| |lia]);
  (destruct i3 as [|[|?]]; [| |lia]);
  (destruct i4 as [|[|?]]; [| |lia]);
  apply lookup_insert_eq.
Qed.

Lemma shown_pole_pole_at i first other second :
  (i < 2)%nat → first ≠ other →
  shown_pole (pole_at i first other) first second = pole_at i first second.
Proof.
  intros Hi Hne. unfold shown_pole. rewrite py_eq_str.
  destruct i as [|[|?]]; [| |lia]; simpl.
  - by rewrite bool_decide_true.
  - by rewrite bool_decide_false.
Qed.

Lemma spec_indicator_pole_at i first other :
  (i < 2)%nat → first ≠ other →
  spec_indicator (pole_at i first other) first = indicator_at i.
Proof.
  intros Hi Hne. unfold spec_indicator.
  destruct i as [|[|?]]; [| |lia]; simpl.
  - by rewrite bool_decide_true.
  - by rewrite bool_decide_false.
Qed.

(** X11: after an MBTI submission in any state a session can reach, the
    Analytics view shows, for each axis in the order ei, sn, tf, jp, the
    indicator 100 when the first option of the axis was chosen and 0 when
    the second was, and writes the letter E or I, S or N, T or F, J or P of
    the chosen option; the type line above them is made of the stored first
    characters, E or I, S or I, T or F, J or P. *)
Theorem mbti_round_trip u s :
  reachable s →
  (ui_ei u < 2)%nat → (ui_sn u < 2)%nat → (ui_tf u < 2)%nat →
  (ui_jp u < 2)%nat → ui_save_mbti u = true →
  let s' := final (mbti_assessment u s) in
  result (analytics_page s') = Ok tt ∧
  progress_bars (rendered (analytics_page s')) =
    [indicator_at (ui_ei u); indicator_at (ui_sn u); indicator_at (ui_tf u);
     indicator_at (ui_jp u)] ∧
  ∃ rest,
    written (rendered (analytics_page s')) =
      ["Your type: " +:+ pole_at (ui_ei u) "E" "I" +:+
         pole_at (ui_sn u) "S" "I" +:+ pole_at (ui_tf u) "T" "F" +:+
         pole_at (ui_jp u) "J" "P";
       "Energy orientation:"; pole_at (ui_ei u) "E" "I";
       "Information gathering:"; pole_at (ui_sn u) "S" "N";
       "Decision making:"; pole_at (ui_tf u) "T" "F";
       "Lifestyle:"; pole_at (ui_jp u) "J" "P"] ++ rest.
Proof.
  intros Hs Hei Hsn Htf Hjp Hsave s'. apply reachable_wf in Hs.
  assert (wf_session s') as Hwf by (by apply (mbti_assessment_keeps u s)).
  pose proof (mbti_assessment_stored u s Hei Hsn Htf Hjp Hsave) as Hmb.
  fold s' in Hmb.
  destruct (analytics_page_stored s' Hwf (lookup_nonempty _ _ _ Hmb))
    as (l1 & l2 & l3 & -> & H1 & H2 & H3).
  split; [done|]. cbn [rendered].
  rewrite progress_bars_sections, written_sections.
  rewrite Hmb in H2.
  destruct H2 as (x1 & x2 & x3 & x4 & _ & _ & _ & _ & Hrec & ->).
  apply mbti_record_inj in Hrec as (_ & <- & <- & <- & <-).
  destruct (personality_data s' !! "big_five");
    [destruct H1 as (? & ? & ? & ? & ? & _ & ->)|subst l1].
  all: destruct (personality_data s' !! "enneagram");
    [destruct H3 as (? & ? & ? & _ & _ & _ & _ & ->)|subst l3].
  all: autorewrite with sections; unfold spec_mbti_indicators.
  all: rewrite !spec_indicator_pole_at, !shown_pole_pole_at by done.
  all: split; [done|]; by eexists.
Qed.

(** The choice Introversion, Intuition, Feeling, Judging in a fresh
    session. *)
Lemma mbti_round_trip_witness :
  let s' := final (mbti_assessment infj_ui fresh_session) in
  result (analytics_page s') = Ok tt ∧
  progress_bars (rendered (analytics_page s')) = [0; 0; 0; 100] ∧
  ∃ rest,
    written (rendered (analytics_page s')) =
      ["Your type: IIFJ";
       "Energy orientation:"; "I"; "Information gathering:"; "N";
       "Decision making:"; "F"; "Lifestyle:"; "J"] ++ rest.
Proof.
  apply (mbti_round_trip infj_ui fresh_session);
    [by exists []|simpl; lia..|reflexivity].
Defined.

Lemma enneagram_assessment_saved u s p w i :
  py_range 1 10 !! ui_primary_type u = Some p →
  wing_options p !! ui_wing u = Some w →
  instinct_options !! ui_instinct u = Some i →
  ui_save_enneagram u = true →
  enneagram_assessment u s =
  Outcome (Ok tt)
    (with_personality_data (<["enneagram" := enneagram_record p w i]>) s)
    [ElSubheader "Enneagram Assessment";
     ElMarkdown enneagram_assessment_text;
     ElSelectbox "Primary Type" (PyInt <$> py_range 1 10);
     ElSelectbox "Wing" (PyInt <$> wing_options p);
     ElSelectbox "Dominant Instinct" (PyStr <$> instinct_options);
     ElButton "Save Enneagram Assessment";
     ElSuccess "Enneagram assessment saved successfully!"].
Proof.
  intros Hp Hw Hi Hsave.
  unfold enneagram_assessment, st_subheader, st_markdown, st_success.
  rewrite !run_bind_emit.
  erewrite run_bind_st_selectbox by eassumption.
  erewrite run_bind_st_selectbox by eassumption.
  erewrite run_bind_st_selectbox by eassumption.
  rewrite run_bind_st_button, Hsave. reflexivity.
Qed.

(** X12: an Enneagram submission with the positions in range returns
    normally and stores the primary type, the wing and the instinct label
    chosen; the Analytics view then ends with the line
    [Type <primary>w<wing> (<instinct label>)], the label with its own
    parenthesised abbreviation. *)
Theorem enneagram_round_trip u s p w i :
  reachable s →
  py_range 1 10 !! ui_primary_type u = Some p →
  wing_options p !! ui_wing u = Some w →
  instinct_options !! ui_instinct u = Some i →
  ui_save_enneagram u = true →
  let s' := final (enneagram_assessment u s) in
  result (enneagram_assessment u s) = Ok tt ∧
  personality_data s' !! "enneagram" = Some (enneagram_record p w i) ∧
  result (analytics_page s') = Ok tt ∧
  last (written (rendered (analytics_page s'))) =
    Some ("Type " +:+ py_str (PyInt p) +:+ "w" +:+ py_str (PyInt w) +:+ " ("
          +:+ i +:+ ")").
Proof.
  intros Hs Hp Hw Hi Hsave s'. apply reachable_wf in Hs.
  assert (wf_session s') as Hwf by (by apply (enneagram_assessment_keeps u s)).
  unfold s' in *. clear s'.
  rewrite (enneagram_assessment_saved u s p w i) in * by done.
  cbn [result final] in *.
  set (s' := with_personality_data _ s) in *.
  assert (personality_data s' !! "enneagram" = Some (enneagram_record p w i))
    as Hen by apply lookup_insert_eq.
  split; [done|]. split; [done|].
  destruct (analytics_page_stored s' Hwf (lookup_nonempty _ _ _ Hen))
    as (l1 & l2 & l3 & -> & _ & _ & H3).
  split; [done|]. cbn [rendered]. rewrite written_sections.
  rewrite Hen in H3. destruct H3 as (p' & w' & i' & _ & _ & _ & Hrec & ->).
  apply enneagram_record_inj in Hrec as (<- & <- & <-).
  rewrite written_enneagram, (assoc_L (++)). apply last_snoc.
Qed.

(** Primary type 9, its only wing 8, the instinct "Social (so)", after a
    Big Five submission. *)
Lemma enneagram_round_trip_witness :
  let s' := final (enneagram_assessment (enneagram_ui_at 8 0)
                     (run_session [big_five_ui])) in
  result (enneagram_assessment (enneagram_ui_at 8 0)
            (run_session [big_five_ui])) = Ok tt ∧
  personality_data s' !! "enneagram" =
    Some (enneagram_record 9 8 "Social (so)") ∧
  result (analytics_page s') = Ok tt ∧
  last (written (rendered (analytics_page s'))) =
    Some "Type 9w8 (Social (so))".
Proof.
  apply (enneagram_round_trip (enneagram_ui_at 8 0)
           (run_session [big_five_ui]) 9 8 "Social (so)");
    [by exists [big_five_ui]|reflexivity..].
Defined.

(** ** The Analytics view on a result with a missing score *)

(** Runs the Analytics view on a store whose Big Five result lacks [k]. *)
Ltac analytics_missing k :=
  exists k; split; [assumption|];
  unfold analytics_page, st_header, st_markdown, st_warning, st_subheader,
    st_bar_chart;
  do 2 run_step;
  erewrite dict_truthy_nonempty by (eapply lookup_nonempty; eassumption);
  cbn [negb];
  repeat run_step;
  rewrite run_bind_getitem_None by assumption;
  reflexivity.

(** X13: the Analytics view reads the five scores of the stored Big Five
    result by key.  When one is missing the view raises [KeyError] for the
    first missing key, having rendered its header, its text and the Big Five
    subheader, no chart and nothing of the other kinds, and it leaves the
    state as it was. *)
Theorem analytics_raises_on_missing_score s r :
  personality_data s !! "big_five" = Some r →
  ¬ (is_Some (r !! "openness") ∧ is_Some (r !! "conscientiousness") ∧
     is_Some (r !! "extraversion") ∧ is_Some (r !! "agreeableness") ∧
     is_Some (r !! "neuroticism")) →
  ∃ k, r !! k = None ∧
    analytics_page s =
    Outcome (Raise (KeyError k)) s
      [ElHeader "Personality Analytics"; ElMarkdown analytics_page_text;
       ElSubheader "Big Five (OCEAN) Profile"].
Proof.
  intros Hbf Hmissing.
  destruct (r !! "openness") as [o|] eqn:Ho;
    [|analytics_missing "openness"].
  destruct (r !! "conscientiousness") as [c|] eqn:Hc;
    [|analytics_missing "conscientiousness"].
  destruct (r !! "extraversion") as [e|] eqn:He;
    [|analytics_missing "extraversion"].
  destruct (r !! "agreeableness") as [a|] eqn:Ha;
    [|analytics_missing "agreeableness"].
  destruct (r !! "neuroticism") as [n|] eqn:Hn;
    [|analytics_missing "neuroticism"].
  destruct Hmissing. by repeat split.
Qed.

(** A Big Five result that holds only its first two scores. *)
Lemma analytics_raises_on_missing_score_witness :
  ∃ k, partial_big_five !! k = None ∧
    analytics_page partial_session =
    Outcome (Raise (KeyError k)) partial_session
      [ElHeader "Personality Analytics"; ElMarkdown analytics_page_text;
       ElSubheader "Big Five (OCEAN) Profile"].
Proof.
  apply (analytics_raises_on_missing_score partial_session partial_big_five).
  - reflexivity.
  - intros (_ & _ & [x Hx] & _). discriminate Hx.
Defined.

(** ** Only the form shown can write *)

Lemma assessment_page_frame u s k :
  kind_keys !! ui_assessment_type u ≠ Some k →
  personality_data (final (assessment_page u s)) !! k =
  personality_data s !! k.
Proof.
  intros Hk. unfold assessment_page, st_header. rewrite run_bind_emit.
  destruct (ui_assessment_type u) as [|[|[|?]]] eqn:Et.
  4: { unfold mbind, M_bind, st_selectbox, emit. reflexivity. }
  all: erewrite run_bind_st_selectbox by reflexivity.
  all: cbn [prepend final]; simpl bool_decide; cbv iota.
  - apply (writes_within_frame _ _ (big_five_assessment_writes u) s).
    rewrite list_elem_of_singleton. by intros ->.
  - apply (writes_within_frame _ _ (mbti_assessment_writes u) s).
    rewrite list_elem_of_singleton. by intros ->.
  - apply (writes_within_frame _ _ (enneagram_assessment_writes u) s).
    rewrite list_elem_of_singleton. by intros ->.
Qed.

(** X14: a run of the script can change only the entry of the assessment
    type selected: every other key of [personality_data] holds what it
    held, even when the Save flags of forms that are not shown are set. *)
Theorem main_writes_selected_kind_only u s k :
  kind_keys !! ui_assessment_type u ≠ Some k →
  personality_data (final (main u s)) !! k = personality_data s !! k.
Proof.
  intros Hk.
  destruct (page_options !! ui_page u) as [p|] eqn:Hp;
    [|by rewrite (main_run_out_of_range _ _ Hp)].
  rewrite (main_run _ _ _ Hp). cbn [prepend final].
  rewrite <- (personality_data_init_session s).
  set (s0 := init_session s).
  set (I := λ s', personality_data s' = personality_data s0).
  destruct (page_options_lookup _ _ Hp)
    as [[_ ->]|[[_ ->]|[[_ ->]|[_ ->]]]]; unfold route; simpl bool_decide;
    cbv iota.
  - by rewrite (proj1 (home_page_keeps I s0 eq_refl)).
  - by apply assessment_page_frame.
  - by rewrite (proj1 (chat_page_keeps I u s0 eq_refl)).
  - by rewrite (proj1 (analytics_page_keeps I s0 eq_refl)).
Qed.

(** The MBTI form saved after a Big Five submission, with the Save flag of
    the Big Five form set: the Big Five entry is the one submitted. *)
Lemma main_writes_selected_kind_only_witness :
  personality_data (final (main stale_save_ui (run_session [big_five_ui])))
    !! "big_five" =
  Some (big_five_record 80 40 60 70 30).
Proof.
  rewrite (main_writes_selected_kind_only stale_save_ui
             (run_session [big_five_ui]) "big_five");
    [reflexivity|discriminate].
Defined.
